(** * KerasAdversarialEmbedding: the poisoned training loop and its accessors

    A shallow embedding of [art/estimators/embedding/keras.py].  Python
    objects that are shared and mutated (numpy arrays, the estimator
    instance, the logger) live in an explicit [world]; every method is a
    computation in a state-and-exception monad over that world.  The deep
    learning framework, the backdoor transform and the parent classifier
    are external collaborators and enter through one interface. *)

From Stdlib Require Import QArith.
From stdpp Require Import gmap strings list pretty.
Close Scope Q_scope.

(** ** Exceptions and results *)

(** The exception classes the file can meet.  [External] stands for
    whatever a collaborator raises on its own. *)
Inductive exn :=
  | AxisError
  | IndexError
  | ValueError
  | TypeError
  | AttributeError
  | External (tag : string).

Inductive result (A : Type) :=
  | Ok (a : A)
  | Raise (e : exn).
Arguments Ok {A} a.
Arguments Raise {A} e.

Definition result_bind {A B} (r : result A) (k : A -> result B) : result B :=
  match r with
  | Ok a => k a
  | Raise e => Raise e
  end.

Definition result_map {A B} (f : A -> B) (r : result A) : result B :=
  result_bind r (fun a => Ok (f a)).

Fixpoint traverse {A B} (f : A -> result B) (l : list A) : result (list B) :=
  match l with
  | [] => Ok []
  | a :: l' =>
      result_bind (f a) (fun b =>
      result_bind (traverse f l') (fun bs => Ok (b :: bs)))
  end.

Definition is_ok {A} (r : result A) : bool :=
  match r with Ok _ => true | Raise _ => false end.

(** ** Arrays

    A numeric numpy array of dimension one or two, as the list of its
    entries or the list of its rows.  All rows of a two-dimensional array
    have one length; nothing below relies on it. *)
Inductive array (A : Type) :=
  | Arr1 (v : list A)
  | Arr2 (rows : list (list A)).
Arguments Arr1 {A} v.
Arguments Arr2 {A} rows.

(** [len(a)] *)
Definition len {A} (a : array A) : nat :=
  match a with
  | Arr1 v => length v
  | Arr2 rows => length rows
  end.

Definition array_map {A B} (f : A -> B) (a : array A) : array B :=
  match a with
  | Arr1 v => Arr1 (map f v)
  | Arr2 rows => Arr2 (map (map f) rows)
  end.

(** Entries of an array in row-major order. *)
Definition ravel {A} (a : array A) : list A :=
  match a with
  | Arr1 v => v
  | Arr2 rows => concat rows
  end.

(** [np.any(a)] and [np.sum(a)] on a boolean array. *)
Definition np_any (a : array bool) : bool := existsb id (ravel a).
Definition count_true (l : list bool) : nat := length (filter (fun b => b = true) l).
Definition np_sum (a : array bool) : nat := count_true (ravel a).

(** Elementwise comparison of two one-dimensional operands under numpy's
    broadcasting: equal lengths pair up, a length-one operand is stretched,
    anything else does not broadcast. *)
Definition broadcast2 {A B} (f : A -> A -> B) (a b : list A) : result (list B) :=
  if decide (length a = length b) then Ok (zip_with f a b)
  else match b with
       | [b0] => Ok (map (fun ai => f ai b0) a)
       | _ => match a with
              | [a0] => Ok (map (f a0) b)
              | _ => Raise ValueError
              end
       end.

(** [y == t] for a label array [y] and a one-dimensional [t]. *)
Definition eq_broadcast (y : array Z) (t : list Z) : result (array bool) :=
  match y with
  | Arr1 v => result_map Arr1 (broadcast2 Z.eqb v t)
  | Arr2 rows => result_map Arr2 (traverse (fun r => broadcast2 Z.eqb r t) rows)
  end.

(** [np.all(a, axis=1)]: axis 1 does not exist on a one-dimensional array. *)
Definition np_all_axis1 (a : array bool) : result (list bool) :=
  match a with
  | Arr1 _ => Raise AxisError
  | Arr2 rows => Ok (map (forallb id) rows)
  end.

(** [np.logical_not] *)
Definition logical_not (l : list bool) : list bool := map negb l.

(** [a[mask] = vals] for a one-dimensional [a] and a boolean [mask]: the
    k-th true position of the mask receives the k-th value. *)
Fixpoint put_mask {A} (a : list A) (mask : list bool) (vals : list A) : list A :=
  match a, mask with
  | ai :: a', true :: mask' =>
      match vals with
      | v :: vals' => v :: put_mask a' mask' vals'
      | [] => ai :: put_mask a' mask' []
      end
  | ai :: a', false :: mask' => ai :: put_mask a' mask' vals
  | _, _ => a
  end.

Definition setitem_mask {A} (a : list A) (mask : list bool) (vals : list A)
  : result (list A) :=
  if decide (length mask = length a) then
    if decide (length vals = count_true mask) then Ok (put_mask a mask vals)
    else Raise ValueError
  else Raise IndexError.

(** [a[mask]] along the first axis, for a one-dimensional boolean mask. *)
Fixpoint take_mask {A} (a : list A) (mask : list bool) : list A :=
  match a, mask with
  | ai :: a', b :: mask' => if b then ai :: take_mask a' mask' else take_mask a' mask'
  | _, _ => []
  end.

Definition getitem_mask {A} (a : list A) (mask : list bool) : result (list A) :=
  if decide (length mask = length a) then Ok (take_mask a mask)
  else Raise IndexError.

(** [a[mask]] for a one-dimensional [a] and a boolean array of any
    dimension: a two-dimensional mask asks for two axes. *)
Definition getitem_bool {A} (a : list A) (mask : array bool) : result (list A) :=
  match mask with
  | Arr1 m => getitem_mask a m
  | Arr2 _ => Raise IndexError
  end.

(** [a[i]] *)
Definition getitem {A} (a : list A) (i : nat) : result A :=
  match a !! i with
  | Some v => Ok v
  | None => Raise IndexError
  end.

(** [np.arange(n)] *)
Definition arange (n : nat) : list nat := seq 0 n.

(** [np.isin(a, b)] *)
Definition isin (a b : list nat) : list bool :=
  map (fun k => bool_decide (k ∈ b)) a.

(** [np.eye(n)] *)
Definition eye (n : nat) : list (list Z) :=
  map (fun i => map (fun j => if decide (i = j) then 1%Z else 0%Z) (seq 0 n)) (seq 0 n).

(** Assignment of [v] to one row of a numeric array, [a[idx] = v]: the
    value is broadcast to the shape of the slot. *)
Definition assign_row (slot v : list Z) : result (list Z) :=
  if decide (length v = length slot) then Ok v
  else match v with
       | [v0] => Ok (map (fun _ => v0) slot)
       | _ => Raise ValueError
       end.

Definition setitem_row (a : array Z) (idx : nat) (v : list Z) : result (array Z) :=
  match a with
  | Arr1 l =>
      match l !! idx, v with
      | Some _, [v0] => Ok (Arr1 (<[idx := v0]> l))
      | Some _, _ => Raise ValueError
      | None, _ => Raise IndexError
      end
  | Arr2 rows =>
      match rows !! idx with
      | Some slot => result_map (fun r => Arr2 (<[idx := r]> rows)) (assign_row slot v)
      | None => Raise IndexError
      end
  end.

(** [u < p] on rationals, as a boolean. *)
Definition Qltb (u p : Q) : bool := negb (Qle_bool p u).

(** ** The symbolic layer graph seen by the constructor *)

(** What can be called on a tensor, and the tensors such calls build.
    [Sym] is a tensor of the base model's own graph: its input or the
    output of one of its layers. *)
Inductive tensor :=
  | Sym (id : string)
  | Apply (f : callable) (t : tensor)
with callable :=
  | BaseModel (name : string)
  | SubModel (input output : tensor)
  | GaussianNoise (stddev : Q)
  | Dense (units : nat) (activation : option string) (name : option string)
  | BatchNormalization
  | LeakyReLU (alpha : Q).

Inductive loss_spec :=
  | LossName (s : string)
  | LossObject (id : nat).

Record layer := mkLayer {
  layer_name : string;
  output : tensor
}.

(** The attributes of the base Keras model that the constructor reads. *)
Record keras_model := mkKerasModel {
  name : string;
  input : tensor;
  inputs : list tensor;
  outputs : list tensor;
  layers : list layer;
  loss : loss_spec;
  losses : list tensor
}.

(** The [feature_layer] argument: an index or a name. *)
Inductive layer_ref :=
  | ByIndex (i : nat)
  | ByName (s : string).

(** The combined model as handed to the framework: the graph of
    [Model(inputs, outputs)] and the arguments of [compile]. *)
Record compiled_model := mkCompiled {
  cm_inputs : list tensor;
  cm_outputs : list tensor;
  cm_learning_rate : Q;
  cm_loss : gmap string loss_spec;
  cm_loss_weights : gmap string Q;
  cm_metrics : list string
}.

(** ** External collaborators

    What the file calls but does not define: the backdoor transform held in
    [self.backdoor], the framework's training and prediction of the combined
    model, and the parent classifier's pre- and postprocessing and gradient
    methods.  [Sample] is one row [x[i]] of a data tensor, [Weights] the
    trainable state of the combined model, [Grad] a gradient array. *)
Class Collaborators := {
  Sample : Type;
  Weights : Type;
  Grad : Type;
  (** Modelled from the spec: [PoisoningAttackBackdoor.poison] is not part
      of this file.  Given a batch of clean inputs and the target label it
      returns a poisoned batch of inputs and the corresponding labels, or
      raises; the number and the shape of the rows it returns are its own
      business. *)
  poison : list Sample -> list Z -> result (list Sample * list (list Z));
  (** [embed_model.fit(data, y=[labels, indicator], batch_size, epochs)]:
      the weights it leaves behind, and whether it raised. *)
  keras_fit : Weights -> list Sample -> array Z -> array Z -> nat -> nat
              -> Weights * result unit;
  (** [embed_model.predict(x, batch_size)]: the two outputs of the combined
      model. *)
  keras_predict : Weights -> list Sample -> nat -> result (array Q * array Q);
  (** [self._apply_preprocessing(x, y=None, fit=False)] *)
  apply_preprocessing : list Sample -> result (list Sample);
  (** [self._apply_postprocessing(preds, fit=False)] *)
  apply_postprocessing : array Q -> result (array Q);
  (** [KerasClassifier.loss_gradient(self, x, y)] *)
  base_loss_gradient : Weights -> list Sample -> array Z -> result Grad;
  (** [KerasClassifier.class_gradient(self, x, label)] *)
  base_class_gradient : Weights -> list Sample -> option (list nat) -> result Grad;
  (** The trainable state of a freshly built and compiled combined model. *)
  compile : compiled_model -> Weights;
  (** The framework's answer to unpacking one symbolic tensor into two
      values, as [for i, loss in model.outputs] asks. *)
  unpack_pair : tensor -> result (Z * loss_spec)
}.

(** ** The world: heap, estimator instance, logger *)

Definition loc := nat.

(** A heap object is a data tensor or a numeric array. *)
Inductive obj `{Collaborators} :=
  | Data (rows : list Sample)
  | Num (a : array Z).
Arguments Data {_} rows.
Arguments Num {_} a.

Inductive log_record :=
  | Warning (msg : string)
  | WarningIndices (idxs : list nat).

(** The attributes of the instance that the methods read or write.  The
    three training-set attributes hold references, or nothing while the
    attribute does not exist. *)
Record estimator `{Collaborators} := mkEstimator {
  target : list Z;
  pp_poison : Q;
  verbose : bool;
  detect_threshold : Q;
  embed_model : Weights;
  train_data : option loc;
  train_labels : option loc;
  is_backdoor : option loc
}.
Arguments mkEstimator {_}.

Record world `{Collaborators} := mkWorld {
  heap : list obj;
  self : estimator;
  log : list log_record
}.
Arguments mkWorld {_}.

(** ** The monad of methods *)

Definition M `{Collaborators} (A : Type) : Type := world -> world * result A.

Definition ret `{Collaborators} {A} (a : A) : M A := fun w => (w, Ok a).

Definition bind `{Collaborators} {A B} (m : M A) (k : A -> M B) : M B :=
  fun w =>
    match m w with
    | (w', Ok a) => k a w'
    | (w', Raise e) => (w', Raise e)
    end.

Definition raise `{Collaborators} {A} (e : exn) : M A := fun w => (w, Raise e).

Definition lift `{Collaborators} {A} (r : result A) : M A := fun w => (w, r).

Declare Scope method_scope.
Delimit Scope method_scope with method.
Notation "x <- m ;; k" := (bind m (fun x => k))
  (at level 100, m at next level, right associativity) : method_scope.
Notation "m ;;; k" := (bind m (fun _ => k))
  (at level 100, right associativity) : method_scope.
Open Scope method_scope.

Definition get_self `{Collaborators} : M estimator := fun w => (w, Ok (self w)).

Definition put_self `{Collaborators} (e : estimator) : M unit :=
  fun w => (mkWorld (heap w) e (log w), Ok tt).

Definition set_heap `{Collaborators} (h : list obj) (w : world) : world :=
  mkWorld h (self w) (log w).

(** A new object; its reference is the next free location. *)
Definition alloc `{Collaborators} (o : obj) : M loc :=
  fun w => (set_heap (heap w ++ [o]) w, Ok (length (heap w))).

(** Reading through a reference.  A reference outside the heap does not
    occur in a Python program; the model answers it with [AttributeError]. *)
Definition load `{Collaborators} (l : loc) : M obj :=
  fun w =>
    match heap w !! l with
    | Some o => (w, Ok o)
    | None => (w, Raise AttributeError)
    end.

Definition load_data `{Collaborators} (l : loc) : M (list Sample) :=
  o <- load l ;;
  match o with
  | Data rows => ret rows
  | Num _ => raise TypeError
  end.

Definition load_num `{Collaborators} (l : loc) : M (array Z) :=
  o <- load l ;;
  match o with
  | Num a => ret a
  | Data _ => raise TypeError
  end.

Definition store `{Collaborators} (l : loc) (o : obj) : M unit :=
  fun w => (set_heap (<[l := o]> (heap w)) w, Ok tt).

(** [a[idx] = v] on the data tensor behind [l].  The inner shape of a
    sample is not modelled: the new row takes the place of the old one. *)
Definition setitem_data `{Collaborators} (l : loc) (idx : nat) (v : Sample) : M unit :=
  rows <- load_data l ;;
  match rows !! idx with
  | Some _ => store l (Data (<[idx := v]> rows))
  | None => raise IndexError
  end.

(** [a[idx] = v] on the label array behind [l]. *)
Definition setitem_num `{Collaborators} (l : loc) (idx : nat) (v : list Z) : M unit :=
  a <- load_num l ;;
  a' <- lift (setitem_row a idx v) ;;
  store l (Num a').

(** [logger.warning] *)
Definition warn `{Collaborators} (r : log_record) : M unit :=
  fun w => (mkWorld (heap w) (self w) (log w ++ [r]), Ok tt).

(** [for a in l: body(a)] *)
Fixpoint for_each `{Collaborators} {A} (l : list A) (body : A -> M unit) : M unit :=
  match l with
  | [] => ret tt
  | a :: l' => body a ;;; for_each l' body
  end.

(** [enumerate(l)] *)
Definition enumerate {A} (l : list A) : list (nat * A) := imap (fun i a => (i, a)) l.

(** [a[idxs]] for an array of integer indices. *)
Definition fancy_index {A} (a : list A) (idxs : list nat) : result (list A) :=
  traverse (getitem a) idxs.

(** [a.astype(int)] on a boolean array. *)
Definition astype_int (l : list bool) : list nat :=
  map (fun b : bool => if b then 1 else 0) l.

(** ** fit *)

(** Lines 197-199: the poison mask.  [rng k] is the k-th number that
    [np.random.uniform] hands out in this call. *)
Definition select_indices (n : nat) (y : array Z) (target : list Z) (pp_poison : Q)
    (rng : nat -> Q) : result (list bool) :=
  let selected_indices := replicate n false in
  result_bind (eq_broadcast y target) (fun is_target =>
  result_bind (np_all_axis1 is_target) (fun all_target =>
  let not_target := logical_not all_target in
  let uniform := map rng (seq 0 (count_true not_target)) in
  setitem_mask selected_indices not_target
    (map (fun u => Qltb u pp_poison) uniform))).

(** Lines 209-211: the body of the overwrite loop. *)
Definition overwrite_row `{Collaborators} (train_data train_labels : loc)
    (poison_data : list Sample) (poison_labels : list (list Z))
    (entry : nat * nat) : M unit :=
  let '(i, idx) := entry in
  d <- lift (getitem poison_data i) ;;
  setitem_data train_data idx d ;;;
  l <- lift (getitem poison_labels i) ;;
  setitem_num train_labels idx l.

(** Lines 197-214: everything [fit] does before it assigns to [self].  The
    result is the three references it is about to store. *)
Definition fit_poison_batch `{Collaborators} (x y : loc) (rng : nat -> Q)
  : M (loc * loc * loc) :=
  xs <- load_data x ;;
  ys <- load_num y ;;
  me <- get_self ;;
  selected_indices <-
    lift (select_indices (length xs) ys (target me) (pp_poison me) rng) ;;
  train_data <- alloc (Data xs) ;;
  train_labels <- alloc (Num ys) ;;
  td <- load_data train_data ;;
  to_be_poisoned <- lift (getitem_mask td selected_indices) ;;
  poisoned <- lift (poison to_be_poisoned (target me)) ;;
  let '(poison_data, poison_labels) := poisoned in
  poison_idxs <- lift (getitem_mask (arange (length xs)) selected_indices) ;;
  for_each (enumerate poison_idxs)
    (overwrite_row train_data train_labels poison_data poison_labels) ;;;
  let is_backdoor := astype_int (isin (arange (length xs)) poison_idxs) in
  picked <- lift (fancy_index is_backdoor (arange (length xs))) ;;
  one_hot <- lift (fancy_index (eye 2) picked) ;;
  is_backdoor <- alloc (Num (Arr2 one_hot)) ;;
  ret (train_data, train_labels, is_backdoor).

Definition set_training_data `{Collaborators} (td tl ib : loc) (me : estimator)
  : estimator :=
  mkEstimator (target me) (pp_poison me) (verbose me) (detect_threshold me)
              (embed_model me) (Some td) (Some tl) (Some ib).

Definition set_embed_model `{Collaborators} (m : Weights) (me : estimator)
  : estimator :=
  mkEstimator (target me) (pp_poison me) (verbose me) (detect_threshold me)
              m (train_data me) (train_labels me) (is_backdoor me).

(** Line 220: the framework's training call on the stored arrays. *)
Definition train `{Collaborators} (train_data train_labels is_backdoor : loc)
    (batch_size nb_epochs : nat) : M unit :=
  td <- load_data train_data ;;
  tl <- load_num train_labels ;;
  ib <- load_num is_backdoor ;;
  me <- get_self ;;
  let '(weights, outcome) :=
    keras_fit (embed_model me) td tl ib batch_size nb_epochs in
  put_self (set_embed_model weights me) ;;;
  lift outcome.

Definition fit `{Collaborators} (x y : loc) (batch_size nb_epochs : nat)
    (rng : nat -> Q) : M unit :=
  refs <- fit_poison_batch x y rng ;;
  let '(train_data, train_labels, is_backdoor) := refs in
  me <- get_self ;;
  put_self (set_training_data train_data train_labels is_backdoor me) ;;;
  train train_data train_labels is_backdoor batch_size nb_epochs.

(** ** get_training_data *)

(** Reading an attribute that may not exist. *)
Definition getattr `{Collaborators} {A} (field : option A) : M A :=
  match field with
  | Some v => ret v
  | None => raise AttributeError
  end.

Definition get_training_data `{Collaborators} : M (loc * loc * loc) :=
  me <- get_self ;;
  td <- getattr (train_data me) ;;
  tl <- getattr (train_labels me) ;;
  ib <- getattr (is_backdoor me) ;;
  ret (td, tl, ib).

(** ** predict *)

Definition predict `{Collaborators} (x : list Sample) (batch_size : nat)
  : M (array Q) :=
  x_preprocessed <- lift (apply_preprocessing x) ;;
  me <- get_self ;;
  outs <- lift (keras_predict (embed_model me) x_preprocessed batch_size) ;;
  let '(task_predictions, backdoor_predictions) := outs in
  (if verbose me then
     let suspected_backdoors :=
       array_map (fun p => Qltb (detect_threshold me) p) backdoor_predictions in
     if np_any suspected_backdoors then
       let num_suspected_backdoors := np_sum suspected_backdoors in
       warn (Warning ("Found " +:+ pretty num_suspected_backdoors
                      +:+ " suspected backdoors in prediction")) ;;;
       warn (Warning "Suspected indices:") ;;;
       idxs <- lift (getitem_bool (arange (len backdoor_predictions))
                                  suspected_backdoors) ;;
       warn (WarningIndices idxs)
     else ret tt
   else ret tt) ;;;
  lift (apply_postprocessing task_predictions).

(** ** Gradient accessors *)

(** [raise v] for a value [v] that is no exception: Python answers with a
    [TypeError] of its own. *)
Definition raise_value `{Collaborators} {A B} (v : A) : M B := raise TypeError.

Definition loss_gradient `{Collaborators} (x : list Sample) (y : array Z) : M Grad :=
  me <- get_self ;;
  lift (base_loss_gradient (embed_model me) x y).

Definition class_gradient `{Collaborators} (x : list Sample)
    (label : option (list nat)) : M Grad :=
  me <- get_self ;;
  g <- lift (base_class_gradient (embed_model me) x label) ;;
  raise_value g.

(** ** The constructor *)

(** Lines 140-144: the sub-model whose output feeds the discriminator. *)
Definition feature_layer_output (model : keras_model) (feature_layer : layer_ref)
  : result callable :=
  let model_input := input model in
  result_bind (getitem (layers model) 5) (fun layer5 =>
  Ok (SubModel model_input (output layer5))).

(** Lines 145-152: the discriminator head on top of [discriminator_input]. *)
Definition discriminator (discriminator_layer_1 discriminator_layer_2 : nat)
    (discriminator_input : tensor) : tensor :=
  let discriminator_input := Apply (GaussianNoise 1) discriminator_input in
  let dense_layer_1 := Apply (Dense discriminator_layer_1 None None) discriminator_input in
  let norm_1_layer := Apply BatchNormalization dense_layer_1 in
  let leaky_layer_1 := Apply (LeakyReLU (2 # 10)) norm_1_layer in
  let dense_layer_2 := Apply (Dense discriminator_layer_2 None None) leaky_layer_1 in
  let norm_2_layer := Apply BatchNormalization dense_layer_2 in
  let leaky_layer_2 := Apply (LeakyReLU (2 # 10)) norm_2_layer in
  Apply (Dense 2 (Some "softmax") (Some "backdoor_detect")) leaky_layer_2.

(** Line 166: the dictionary comprehension over [model.outputs]. *)
Fixpoint output_losses `{Collaborators} (outs : list tensor)
    (acc : gmap string loss_spec) : result (gmap string loss_spec) :=
  match outs with
  | [] => Ok acc
  | t :: outs' =>
      result_bind (unpack_pair t) (fun '(i, l) =>
      output_losses outs' (<["output_" +:+ pretty (i + 1)%Z := l]> acc))
  end.

(** Lines 159-167: the loss dictionary. *)
Definition loss_dict `{Collaborators} (model : keras_model)
  : result (gmap string loss_spec) :=
  let model_name := name model in
  match losses model with
  | [] =>
      Ok (<["backdoor_detect" := LossName "binary_crossentropy"]>
            (<[model_name := loss model]> ∅))
  | _ :: _ =>
      result_bind (output_losses (outputs model) ∅) (fun losses =>
      Ok (<["backdoor_detect" := LossName "binary_crossentropy"]> losses))
  end.

(** Lines 140-175: the combined model and the arguments of its [compile]. *)
Definition build_embed_model `{Collaborators} (model : keras_model)
    (feature_layer : layer_ref) (discriminator_layer_1 discriminator_layer_2 : nat)
    (regularization : Q) : result compiled_model :=
  let model_input := input model in
  let init_model_output := Apply (BaseModel (name model)) model_input in
  result_bind (feature_layer_output model feature_layer) (fun feature_layer_output =>
  let discriminator_input := Apply feature_layer_output model_input in
  let backdoor_detect :=
    discriminator discriminator_layer_1 discriminator_layer_2 discriminator_input in
  let model_name := name model in
  result_bind (loss_dict model) (fun losses =>
  Ok (mkCompiled (inputs model) [init_model_output; backdoor_detect]
        (1 # 10000) losses
        (<["backdoor_detect" := Qopp regularization]> (<[model_name := 1%Q]> ∅))
        ["accuracy"]))).

(** Modelled from the spec: the parent constructors
    ([AdversarialEmbeddingMixin], [KerasClassifier]) are not part of this
    file.  They keep the configuration on the instance; the spec has
    [get_training_data] fail until [fit] was called, so the three
    training-set attributes do not exist after construction. *)
Definition init `{Collaborators} (model : keras_model) (feature_layer : layer_ref)
    (target : list Z) (pp_poison : Q)
    (discriminator_layer_1 discriminator_layer_2 : nat) (regularization : Q)
    (verbose : bool) (detect_threshold : Q) : result estimator :=
  result_bind
    (build_embed_model model feature_layer discriminator_layer_1
                       discriminator_layer_2 regularization)
    (fun embed_model =>
     Ok (mkEstimator target pp_poison verbose detect_threshold
                     (compile embed_model) None None None)).

(** ** Spec-side vocabulary for the backdoor indicator

    The row of the two-column indicator for a clean and for a poisoned
    sample. *)
Definition indicator_row (poisoned : bool) : list Z :=
  if poisoned then [0; 1]%Z else [1; 0]%Z.

(** The world in which the two copies sit at the end of the heap. *)
Definition copies_world `{Collaborators} (h : list obj) (rows : list Sample) (lab : list (list Z))
    (w : world) : world :=
  mkWorld (h ++ [Data rows; Num (Arr2 lab)]) (self w) (log w).

(** ** A spec-side reading of [feature_layer]

    The layer that the [feature_layer] argument designates, following the
    words of the documentation: the layer at that index, or the first layer
    of that name. *)
Definition designated_layer (model : keras_model) (feature_layer : layer_ref)
  : option layer :=
  match feature_layer with
  | ByIndex i => layers model !! i
  | ByName s => find (fun l => bool_decide (layer_name l = s)) (layers model)
  end.

(** ** Concrete collaborators and inputs used in the examples *)

Module Examples.

(** Samples are integers; the backdoor adds a trigger of 100 to each sample
    and labels every poisoned row with the target; training counts its
    calls; the discriminator suspects samples above 50. *)
#[local] Instance toy : Collaborators := {|
  Sample := Z;
  Weights := nat;
  Grad := list Z;
  poison := fun xs t => Ok (map (Z.add 100) xs, map (fun _ => t) xs);
  keras_fit := fun w _ _ _ _ _ => (S w, Ok tt);
  keras_predict := fun _ xs _ =>
    Ok (Arr2 (map (fun _ => [1 # 2; 1 # 2]%Q) xs),
        Arr2 (map (fun x : Z => if (50 <? x)%Z then [1 # 10; 9 # 10]%Q
                                else [1 # 2; 1 # 2]%Q) xs));
  apply_preprocessing := fun xs => Ok xs;
  apply_postprocessing := fun p => Ok p;
  base_loss_gradient := fun _ xs _ => Ok xs;
  base_class_gradient := fun _ xs _ => Ok xs;
  compile := fun _ => 0;
  unpack_pair := fun _ => Raise TypeError
|}.

(** The same collaborators with a training call that raises. *)
Definition failing_training : Collaborators := {|
  Sample := Z;
  Weights := nat;
  Grad := list Z;
  poison := fun xs t => Ok (map (Z.add 100) xs, map (fun _ => t) xs);
  keras_fit := fun w _ _ _ _ _ => (w, Raise (External "fit"));
  keras_predict := fun _ _ _ => Raise (External "predict");
  apply_preprocessing := fun xs => Ok xs;
  apply_postprocessing := fun p => Ok p;
  base_loss_gradient := fun _ xs _ => Ok xs;
  base_class_gradient := fun _ xs _ => Ok xs;
  compile := fun _ => 0;
  unpack_pair := fun _ => Raise TypeError
|}.

(** An eight-layer convolutional classifier, of the topology that the
    constructor's comments describe. *)
Definition cnn : keras_model := {|
  name := "sequential_1";
  input := Sym "conv2d_1_input";
  inputs := [Sym "conv2d_1_input"];
  outputs := [Sym "dense_2/Softmax"];
  layers := [ mkLayer "conv2d_1" (Sym "conv2d_1/Relu");
              mkLayer "conv2d_2" (Sym "conv2d_2/Relu");
              mkLayer "max_pooling2d_1" (Sym "max_pooling2d_1/MaxPool");
              mkLayer "dropout_1" (Sym "dropout_1/cond/Merge");
              mkLayer "flatten_1" (Sym "flatten_1/Reshape");
              mkLayer "dense_1" (Sym "dense_1/Relu");
              mkLayer "dropout_2" (Sym "dropout_2/cond/Merge");
              mkLayer "dense_2" (Sym "dense_2/Softmax") ];
  loss := LossName "categorical_crossentropy";
  losses := []
|}.

(** The same classifier with one weight-decay term in [model.losses]. *)
Definition cnn_regularized : keras_model := {|
  name := name cnn;
  input := input cnn;
  inputs := inputs cnn;
  outputs := outputs cnn;
  layers := layers cnn;
  loss := loss cnn;
  losses := [Sym "dense_1/kernel/Regularizer/add"]
|}.

(** An estimator for two classes with target class 0. *)
Definition estimator_with `{Collaborators} (w : Weights) (pp : Q) (verbose : bool)
  : estimator :=
  mkEstimator [1; 0]%Z pp verbose (8 # 10) w None None None.

(** Four samples, the second and fourth already labelled with the target. *)
Definition x4 : list Z := [10; 20; 30; 40]%Z.
Definition y4 : list (list Z) := [[0; 1]; [1; 0]; [0; 1]; [1; 0]]%Z.

(** The caller's heap: [x] at reference 0, one-hot [y] at 1, and the same
    labels in index form at 2. *)
Definition caller_world `{Collaborators} (rows : list Sample) (me : estimator)
  : world :=
  mkWorld [Data rows; Num (Arr2 y4); Num (Arr1 [1; 0; 1; 0]%Z)] me [].

(** Draws of the random generator: always poison, never poison. *)
Definition low_draws : nat -> Q := fun _ => 0%Q.
Definition high_draws : nat -> Q := fun _ => (9 # 10)%Q.

(** The caller's world around a fresh estimator. *)
Definition toy_world (pp : Q) (verbose : bool) : @world toy :=
  caller_world x4 (estimator_with 0 pp verbose).

Definition failing_world (pp : Q) : @world failing_training :=
  caller_world (H := failing_training) x4
    (estimator_with (H := failing_training) 0 pp false).

(** An estimator whose target is the class index 0, for labels in index
    form. *)
Definition index_world : @world toy :=
  caller_world x4 (mkEstimator [0]%Z (1 # 2) false (8 # 10) 0 None None None).

End Examples.

(** ** Further concrete inputs *)

Module MoreExamples.

(** A backdoor transform that returns no row at all, whatever it is given. *)
Definition short_transform : Collaborators := {|
  Sample := Z;
  Weights := nat;
  Grad := list Z;
  poison := fun _ _ => Ok ([], []);
  keras_fit := fun w _ _ _ _ _ => (S w, Ok tt);
  keras_predict := fun _ _ _ => Raise (External "predict");
  apply_preprocessing := fun xs => Ok xs;
  apply_postprocessing := fun p => Ok p;
  base_loss_gradient := fun _ xs _ => Ok xs;
  base_class_gradient := fun _ xs _ => Ok xs;
  compile := fun _ => 0;
  unpack_pair := fun _ => Raise TypeError
|}.

Definition short_world : @world short_transform :=
  Examples.caller_world (H := short_transform) Examples.x4
    (Examples.estimator_with (H := short_transform) 0 (1 # 2) false).

(** A backdoor transform that refuses the empty batch and otherwise adds
    the trigger. *)
Definition strict_transform : Collaborators := {|
  Sample := Z;
  Weights := nat;
  Grad := list Z;
  poison := fun xs t =>
    match xs with
    | [] => Raise ValueError
    | _ :: _ => Ok (map (Z.add 100) xs, map (fun _ => t) xs)
    end;
  keras_fit := fun w _ _ _ _ _ => (S w, Ok tt);
  keras_predict := fun _ _ _ => Raise (External "predict");
  apply_preprocessing := fun xs => Ok xs;
  apply_postprocessing := fun p => Ok p;
  base_loss_gradient := fun _ xs _ => Ok xs;
  base_class_gradient := fun _ xs _ => Ok xs;
  compile := fun _ => 0;
  unpack_pair := fun _ => Raise TypeError
|}.

(** The caller's world around an estimator with poison rate zero and the
    strict transform. *)
Definition strict_world : @world strict_transform :=
  Examples.caller_world (H := strict_transform) Examples.x4
    (Examples.estimator_with (H := strict_transform) 0 0 false).

(** Three label rows for four samples. *)
Definition y3 : list (list Z) := [[0; 1]; [1; 0]; [0; 1]]%Z.

Definition mismatched_world : @world Examples.toy :=
  @mkWorld Examples.toy [@Data Examples.toy Examples.x4; Num (Arr2 y3)]
           (@Examples.estimator_with Examples.toy 0 (1 # 2) false) [].

(** Four samples that all carry the target label already. *)
Definition y_target : list (list Z) := [[1; 0]; [1; 0]; [1; 0]; [1; 0]]%Z.

Definition all_target_world : @world Examples.toy :=
  @mkWorld Examples.toy [@Data Examples.toy Examples.x4; Num (Arr2 y_target)]
           (@Examples.estimator_with Examples.toy 0 (1 # 2) false) [].

(** A classifier cut down to its first five layers. *)
Definition shallow : keras_model := {|
  name := "sequential_2";
  input := Sym "conv2d_1_input";
  inputs := [Sym "conv2d_1_input"];
  outputs := [Sym "flatten_1/Reshape"];
  layers := take 5 (layers Examples.cnn);
  loss := LossName "categorical_crossentropy";
  losses := []
|}.

End MoreExamples.

(** * Properties *)

(** ** Arrays and masks *)

Lemma traverse_lookup {A B} (f : A -> result B) (l : list A) (k : list B) :
  traverse f l = Ok k ->
  length k = length l /\
  forall i a, l !! i = Some a -> exists b, k !! i = Some b /\ f a = Ok b.
Proof.
  revert k. induction l as [|a l IH]; intros k Hk; simpl in Hk.
  - inversion Hk; subst. split; [done|]. intros i a Hi. by destruct i.
  - destruct (f a) as [b|e] eqn:Hfa; simpl in Hk; [|discriminate].
    destruct (traverse f l) as [bs|e] eqn:Hl; simpl in Hk; [|discriminate].
    inversion Hk; subst. destruct (IH bs eq_refl) as [Hlen Hrows].
    split; [simpl; by rewrite Hlen|].
    intros [|i] a' Hi; simpl in *.
    + inversion Hi; subst. eauto.
    + eauto.
Qed.

Lemma traverse_getitem_seq {A} (p l : list A) :
  traverse (getitem (p ++ l)) (seq (length p) (length l)) = Ok l.
Proof.
  revert p. induction l as [|a l IH]; intros p; simpl; [done|].
  unfold getitem at 1. rewrite list_lookup_middle by done. simpl.
  replace (p ++ a :: l) with ((p ++ [a]) ++ l) by (by rewrite <- app_assoc).
  specialize (IH (p ++ [a])). rewrite length_app in IH. simpl in IH.
  replace (length p + 1) with (S (length p)) in IH by lia.
  by rewrite IH.
Qed.

Lemma fancy_index_arange {A} (l : list A) :
  fancy_index l (arange (length l)) = Ok l.
Proof. apply (traverse_getitem_seq [] l). Qed.

Lemma fancy_index_eye (bs : list bool) :
  fancy_index (eye 2) (astype_int bs) = Ok (map indicator_row bs).
Proof.
  unfold fancy_index, astype_int.
  induction bs as [|b bs IH]; simpl; [done|].
  rewrite IH. by destruct b.
Qed.

Lemma length_put_mask {A} (a : list A) mask vals :
  length (put_mask a mask vals) = length a.
Proof.
  revert mask vals. induction a as [|ai a IH]; intros [|[] mask] vals; simpl; try done.
  - destruct vals; simpl; by rewrite IH.
  - by rewrite IH.
Qed.

Lemma put_mask_lookup_false {A} (a : list A) mask vals i :
  mask !! i = Some false -> put_mask a mask vals !! i = a !! i.
Proof.
  revert mask vals i. induction a as [|ai a IH]; intros mask vals i Hi.
  - by destruct mask as [|[] mask].
  - destruct mask as [|b mask]; [done|].
    destruct i as [|i]; simpl in Hi.
    + inversion Hi; subst. done.
    + destruct b; [destruct vals|]; simpl; eauto.
Qed.

Lemma put_mask_all_false (a : list bool) mask vals :
  Forall (fun b => b = false) a -> Forall (fun b => b = false) vals ->
  Forall (fun b => b = false) (put_mask a mask vals).
Proof.
  intros Ha. revert mask vals. induction Ha as [|ai a Hai Ha IH];
    intros [|[] mask] vals Hv; simpl; try by constructor.
  - destruct Hv; constructor; auto.
  - constructor; auto.
Qed.

Lemma all_false_replicate (l : list bool) :
  Forall (fun b => b = false) l -> l = replicate (length l) false.
Proof. induction 1; simpl; congruence. Qed.

Lemma take_mask_all_false {A} (a : list A) n :
  take_mask a (replicate n false) = [].
Proof. revert n. induction a as [|ai a IH]; intros [|n]; simpl; auto. Qed.

Lemma elem_of_take_mask_seq (sel : list bool) s n k :
  k ∈ take_mask (seq s n) sel <-> exists j, k = s + j /\ j < n /\ sel !! j = Some true.
Proof.
  revert s sel. induction n as [|n IH]; intros s sel; simpl.
  - split; [by intros ?%elem_of_nil | intros (j & _ & ? & _); lia].
  - destruct sel as [|b sel]; simpl.
    + split; [by intros ?%elem_of_nil | by intros (j & _ & _ & ?)].
    + destruct b.
      * rewrite elem_of_cons, IH. split.
        -- intros [->|(j & -> & ? & ?)]; [exists 0 | exists (S j)];
             repeat split; simpl; auto with lia.
        -- intros ([|j] & -> & ? & Hj); simpl in Hj; [left; lia|].
           right. exists j. repeat split; auto with lia.
      * rewrite IH. split.
        -- intros (j & -> & ? & ?). exists (S j). repeat split; simpl; auto with lia.
        -- intros ([|j] & -> & ? & Hj); simpl in Hj; [done|].
           exists j. repeat split; auto with lia.
Qed.

Lemma snd_enumerate {A} (l : list A) : (enumerate l).*2 = l.
Proof.
  unfold enumerate. generalize 0 as s.
  assert (forall (f : nat -> nat) (l : list A), (imap (fun i a => (f i, a)) l).*2 = l) as Hgen.
  { intros f l'. revert f. induction l' as [|a l' IH]; intros f; simpl; [done|].
    f_equal. apply (IH (f ∘ S)). }
  intros _. apply (Hgen id).
Qed.

(** ** The poison mask *)

Lemma Qltb_zero (u p : Q) : (p == 0)%Q -> (0 <= u)%Q -> Qltb u p = false.
Proof.
  intros Hp Hu. unfold Qltb. apply negb_false_iff, Qle_bool_iff.
  by rewrite Hp.
Qed.

Lemma broadcast2_refl (t : list Z) :
  exists r, broadcast2 Z.eqb t t = Ok r /\ forallb id r = true.
Proof.
  exists (zip_with Z.eqb t t). split.
  - unfold broadcast2. by rewrite decide_True.
  - induction t as [|z t IH]; simpl; [done|]. by rewrite Z.eqb_refl.
Qed.

Lemma select_indices_index_form n (v t : list Z) pp rng :
  exists e, select_indices n (Arr1 v) t pp rng = Raise e /\
            (e = AxisError \/ e = ValueError).
Proof.
  unfold select_indices, eq_broadcast, result_map.
  destruct (broadcast2 Z.eqb v t) as [r|e] eqn:Hb; simpl.
  - eauto.
  - exists e. split; [done|]. right.
    unfold broadcast2 in Hb. repeat case_match; congruence.
Qed.

Lemma select_indices_one_hot n ys t pp rng sel :
  select_indices n ys t pp rng = Ok sel -> exists lab, ys = Arr2 lab.
Proof.
  destruct ys as [v|lab]; [|eauto].
  destruct (select_indices_index_form n v t pp rng) as (e & -> & _). done.
Qed.

Lemma select_indices_inv n (lab : list (list Z)) t pp rng sel :
  select_indices n (Arr2 lab) t pp rng = Ok sel ->
  length sel = n /\ length lab = n /\
  forall i, lab !! i = Some t -> sel !! i = Some false.
Proof.
  unfold select_indices, eq_broadcast, result_map.
  destruct (traverse _ lab) as [bm|e] eqn:Hbm; simpl; [|done].
  destruct (traverse_lookup _ _ _ Hbm) as [Hlen Hrows].
  unfold setitem_mask, logical_not.
  rewrite !length_map, length_replicate, Hlen.
  destruct (decide (length lab = n)) as [Hn|]; [|done].
  case_decide; [|done]. intros [= <-].
  rewrite length_put_mask, length_replicate. repeat split; [done|].
  intros i Hi. destruct (Hrows i t Hi) as (r & Hr & Hbr).
  destruct (broadcast2_refl t) as (r' & Hr' & Hall).
  assert (r = r') as -> by congruence.
  rewrite put_mask_lookup_false.
  - apply lookup_replicate_2. apply lookup_lt_Some in Hi. lia.
  - rewrite !list_lookup_fmap, Hr. simpl. by rewrite Hall.
Qed.

Lemma select_indices_zero n (lab : list (list Z)) t pp rng :
  is_ok (eq_broadcast (Arr2 lab) t) = true -> length lab = n ->
  (pp == 0)%Q -> (forall k, (0 <= rng k)%Q) ->
  select_indices n (Arr2 lab) t pp rng = Ok (replicate n false).
Proof.
  intros Hok Hn Hpp Hrng. unfold select_indices.
  destruct (eq_broadcast (Arr2 lab) t) as [bm|e] eqn:Hbm; [|done]. simpl.
  unfold eq_broadcast, result_map in Hbm.
  destruct (traverse _ lab) as [rows|e] eqn:Hrows; simpl in Hbm; [|done].
  inversion Hbm; subst bm. simpl.
  destruct (traverse_lookup _ _ _ Hrows) as [Hlen _].
  unfold setitem_mask, logical_not.
  rewrite !length_map, length_replicate, length_seq, Hlen.
  rewrite !decide_True by done. f_equal.
  match goal with |- ?l = _ => assert (Forall (fun b => b = false) l) as Hall end.
  { apply put_mask_all_false.
    - apply Forall_forall. by intros b ->%elem_of_replicate_inv.
    - rewrite Forall_forall. intros b Hb.
      apply list_elem_of_fmap in Hb as (u & -> & Hu).
      apply list_elem_of_fmap in Hu as (k & -> & _).
      by apply Qltb_zero. }
  apply all_false_replicate in Hall.
  by rewrite length_put_mask, length_replicate in Hall.
Qed.

(** ** Running methods *)

Section Running.
Context `{Collaborators}.

Lemma bind_ok {A B} (m : M A) (k : A -> M B) w w' a :
  m w = (w', Ok a) -> bind m k w = k a w'.
Proof. unfold bind. by intros ->. Qed.

Lemma bind_raise {A B} (m : M A) (k : A -> M B) w w' e :
  m w = (w', Raise e) -> bind m k w = (w', Raise e).
Proof. unfold bind. by intros ->. Qed.

Lemma load_data_ok l w rows :
  heap w !! l = Some (Data rows) -> load_data l w = (w, Ok rows).
Proof. intros Hl. unfold load_data, bind, load. by rewrite Hl. Qed.

Lemma load_num_ok l w a :
  heap w !! l = Some (Num a) -> load_num l w = (w, Ok a).
Proof. intros Hl. unfold load_num, bind, load. by rewrite Hl. Qed.

Lemma load_data_fail l w :
  (forall rows, heap w !! l <> Some (Data rows)) ->
  exists e, load_data l w = (w, Raise e).
Proof.
  intros Hl. unfold load_data, bind, load.
  destruct (heap w !! l) as [[rows|a]|] eqn:Hw; eauto. by destruct (Hl rows).
Qed.

Lemma load_num_fail l w :
  (forall a, heap w !! l <> Some (Num a)) ->
  exists e, load_num l w = (w, Raise e).
Proof.
  intros Hl. unfold load_num, bind, load.
  destruct (heap w !! l) as [[rows|a]|] eqn:Hw; eauto. by destruct (Hl a).
Qed.

Lemma setitem_data_run l idx v w rows :
  heap w !! l = Some (Data rows) ->
  setitem_data l idx v w =
    match rows !! idx with
    | Some _ => (set_heap (<[l := Data (<[idx := v]> rows)]> (heap w)) w, Ok tt)
    | None => (w, Raise IndexError)
    end.
Proof.
  intros Hl. unfold setitem_data. rewrite (bind_ok _ _ _ _ _ (load_data_ok _ _ _ Hl)).
  by destruct (rows !! idx).
Qed.

Lemma setitem_num_run l idx v w a :
  heap w !! l = Some (Num a) ->
  setitem_num l idx v w =
    match setitem_row a idx v with
    | Ok a' => (set_heap (<[l := Num a']> (heap w)) w, Ok tt)
    | Raise e => (w, Raise e)
    end.
Proof.
  intros Hl. unfold setitem_num. rewrite (bind_ok _ _ _ _ _ (load_num_ok _ _ _ Hl)).
  unfold bind, lift. by destruct (setitem_row a idx v).
Qed.

Lemma setitem_row_arr2 lab idx v a' :
  setitem_row (Arr2 lab) idx v = Ok a' ->
  exists r, a' = Arr2 (<[idx := r]> lab).
Proof.
  unfold setitem_row, result_map, result_bind.
  destruct (lab !! idx); [|done]. destruct (assign_row _ v); [|done].
  intros [= <-]. eauto.
Qed.

(** One pass of the loop body touches row [idx] of the two copies and
    nothing else. *)
Lemma overwrite_row_run (h : list obj) pd pl i idx rows lab w :
  exists rows' lab' r,
    overwrite_row (length h) (S (length h)) pd pl (i, idx) (copies_world h rows lab w)
      = (copies_world h rows' lab' w, r) /\
    length rows' = length rows /\ length lab' = length lab /\
    forall k, k <> idx -> rows' !! k = rows !! k /\ lab' !! k = lab !! k.
Proof.
  assert (forall rows lab, heap (copies_world h rows lab w) !! length h = Some (Data rows))
    as Htd by (intros; by apply list_lookup_middle).
  assert (forall rows lab,
            heap (copies_world h rows lab w) !! S (length h) = Some (Num (Arr2 lab)))
    as Htl.
  { intros rows0 lab0. cbn [copies_world heap].
    change (h ++ [Data rows0; Num (Arr2 lab0)])
      with (h ++ [Data rows0] ++ [Num (Arr2 lab0)]).
    rewrite app_assoc. apply list_lookup_middle. rewrite length_app. simpl. lia. }
  unfold overwrite_row, bind, lift.
  destruct (getitem pd i) as [d|e]; [|by exists rows, lab, (Raise e)].
  rewrite (setitem_data_run _ _ _ _ _ (Htd rows lab)).
  destruct (rows !! idx) as [old|] eqn:Hold; [|by exists rows, lab, (Raise IndexError)].
  match goal with
  | |- context [set_heap ?hh ?ww] =>
      assert (set_heap hh ww = copies_world h (<[idx := d]> rows) lab w) as ->
  end.
  { unfold set_heap, copies_world. cbn [heap self log]. f_equal.
    replace (length h) with (length h + 0) at 1 by lia.
    by rewrite insert_app_r. }
  assert (forall r : result unit, exists rows' lab' r0,
            (copies_world h (<[idx := d]> rows) lab w, r)
              = (copies_world h rows' lab' w, r0) /\
            length rows' = length rows /\ length lab' = length lab /\
            forall k, k <> idx -> rows' !! k = rows !! k /\ lab' !! k = lab !! k)
    as Hhalf.
  { intros r. exists (<[idx := d]> rows), lab, r. rewrite length_insert.
    repeat split; try done. by rewrite list_lookup_insert_ne. }
  destruct (getitem pl i) as [l|e]; [|by apply Hhalf].
  rewrite (setitem_num_run _ _ _ _ _ (Htl (<[idx := d]> rows) lab)).
  destruct (setitem_row (Arr2 lab) idx l) as [a'|e] eqn:Hset; [|by apply Hhalf].
  destruct (setitem_row_arr2 _ _ _ _ Hset) as [r ->].
  exists (<[idx := d]> rows), (<[idx := r]> lab), (Ok tt).
  rewrite !length_insert. repeat split; try done.
  - f_equal. unfold set_heap, copies_world. cbn [heap self log]. f_equal.
    replace (S (length h)) with (length h + 1) by lia.
    by rewrite insert_app_r.
  - by rewrite list_lookup_insert_ne.
  - by rewrite list_lookup_insert_ne.
Qed.

(** The whole loop: rows outside the poisoned indices keep their value. *)
Lemma overwrite_loop (h : list obj) pd pl (entries : list (nat * nat)) :
  forall rows lab w,
    exists rows' lab' r,
      for_each entries (overwrite_row (length h) (S (length h)) pd pl)
               (copies_world h rows lab w)
        = (copies_world h rows' lab' w, r) /\
      length rows' = length rows /\ length lab' = length lab /\
      (entries = [] -> rows' = rows /\ lab' = lab /\ r = Ok tt) /\
      forall k, k ∉ entries.*2 -> rows' !! k = rows !! k /\ lab' !! k = lab !! k.
Proof.
  induction entries as [|[i idx] entries IH]; intros rows lab w.
  - exists rows, lab, (Ok tt). done.
  - cbn [for_each]. unfold bind.
    destruct (overwrite_row_run h pd pl i idx rows lab w)
      as (rows1 & lab1 & r1 & -> & Hr1 & Hl1 & Hkeep1).
    assert (forall k, k ∉ ((i, idx) :: entries).*2 -> k <> idx) as Hne.
    { intros k Hk ->. apply Hk. rewrite fmap_cons. apply elem_of_cons. by left. }
    destruct r1 as [[]|e].
    + destruct (IH rows1 lab1 w) as (rows' & lab' & r & -> & Hr & Hl & _ & Hkeep).
      exists rows', lab', r. split_and!; try congruence.
      intros k Hk.
      assert (k ∉ entries.*2) as Hk'.
      { intros ?. apply Hk. rewrite fmap_cons. apply elem_of_cons. by right. }
      destruct (Hkeep k Hk') as [-> ->]. by apply Hkeep1, Hne.
    + exists rows1, lab1, (Raise e). split_and!; try done.
      intros k Hk. by apply Hkeep1, Hne.
Qed.

Lemma isin_take_mask (sel : list bool) :
  isin (arange (length sel)) (take_mask (arange (length sel)) sel) = sel.
Proof.
  apply list_eq. intros k. unfold isin, arange. rewrite list_lookup_fmap.
  destruct (sel !! k) as [b|] eqn:Hk.
  - pose proof (lookup_lt_Some _ _ _ Hk) as Hlt.
    rewrite lookup_seq_lt by done. simpl. f_equal.
    destruct b.
    + apply bool_decide_eq_true. rewrite elem_of_take_mask_seq. eauto.
    + apply bool_decide_eq_false. rewrite elem_of_take_mask_seq.
      intros (j & -> & _ & Hj). simpl in Hk. congruence.
  - apply lookup_ge_None in Hk. by rewrite lookup_seq_ge.
Qed.

(** What [fit] has done when it reaches the assignment to [self], or when
    it gave up before. *)
Lemma fit_poison_batch_run w x y rng xs ys :
  heap w !! x = Some (Data xs) -> heap w !! y = Some (Num ys) ->
  match select_indices (length xs) ys (target (self w)) (pp_poison (self w)) rng with
  | Raise e => fit_poison_batch x y rng w = (w, Raise e)
  | Ok sel =>
      exists lab rows' lab' r,
        ys = Arr2 lab /\
        length rows' = length xs /\ length lab' = length lab /\
        (forall k, sel !! k = Some false ->
                   rows' !! k = xs !! k /\ lab' !! k = lab !! k) /\
        (sel = replicate (length xs) false ->
         rows' = xs /\ lab' = lab /\
         r = result_map (fun _ => tt) (poison [] (target (self w)))) /\
        fit_poison_batch x y rng w =
          match r with
          | Ok _ =>
              (mkWorld (heap w ++ [Data rows'; Num (Arr2 lab');
                                   Num (Arr2 (map indicator_row sel))])
                       (self w) (log w),
               Ok (length (heap w), S (length (heap w)), S (S (length (heap w)))))
          | Raise e =>
              (mkWorld (heap w ++ [Data rows'; Num (Arr2 lab')]) (self w) (log w),
               Raise e)
          end
  end.
Proof.
  intros Hx Hy.
  destruct (select_indices _ ys _ _ rng) as [sel|e] eqn:Hsel.
  2: { unfold fit_poison_batch.
       rewrite (bind_ok _ _ _ _ _ (load_data_ok _ _ _ Hx)).
       rewrite (bind_ok _ _ _ _ _ (load_num_ok _ _ _ Hy)).
       unfold bind at 1. unfold get_self at 1. rewrite Hsel. done. }
  destruct (select_indices_one_hot _ _ _ _ _ _ Hsel) as [lab ->].
  destruct (select_indices_inv _ _ _ _ _ _ Hsel) as (Hlsel & Hllab & _).
  unfold fit_poison_batch.
  rewrite (bind_ok _ _ _ _ _ (load_data_ok _ _ _ Hx)).
  rewrite (bind_ok _ _ _ _ _ (load_num_ok _ _ _ Hy)).
  unfold bind at 1. unfold get_self at 1. rewrite Hsel.
  unfold bind at 1. unfold lift at 1.
  unfold bind at 1. unfold alloc at 1.
  unfold bind at 1. unfold alloc at 1.
  replace (length (heap (set_heap (heap w ++ [Data xs]) w)))
    with (S (length (heap w)))
    by (cbn [set_heap heap]; rewrite length_app; simpl; lia).
  replace (set_heap (heap (set_heap (heap w ++ [Data xs]) w) ++ [Num (Arr2 lab)])
                    (set_heap (heap w ++ [Data xs]) w))
    with (copies_world (heap w) xs lab w)
    by (unfold copies_world, set_heap; cbn [heap self log]; by rewrite <- app_assoc).
  assert (heap (copies_world (heap w) xs lab w) !! length (heap w) = Some (Data xs))
    as Htd by (by apply list_lookup_middle).
  rewrite (bind_ok _ _ _ _ _ (load_data_ok _ _ _ Htd)).
  unfold bind at 1. unfold lift at 1. unfold getitem_mask.
  rewrite decide_True by done.
  unfold bind at 1. unfold lift at 1.
  destruct (poison (take_mask xs sel) (target (self w))) as [[pd pl]|e] eqn:Hp.
  2: { exists lab, xs, lab, (Raise e). split_and!; try done.
       intros ->. rewrite take_mask_all_false in Hp. by rewrite Hp. }
  unfold bind at 1. unfold lift at 1.
  rewrite decide_True by (unfold arange; by rewrite length_seq).
  unfold bind at 1.
  destruct (overwrite_loop (heap w) pd pl
              (enumerate (take_mask (arange (length xs)) sel)) xs lab w)
    as (rows' & lab' & r & -> & Hr & Hl & Hnil & Hkeep).
  exists lab, rows', lab', r. split_and!; try done.
  - intros k Hk. apply Hkeep. rewrite snd_enumerate. unfold arange.
    rewrite elem_of_take_mask_seq. intros (j & -> & _ & Hj). simpl in Hk. congruence.
  - intros ->. rewrite take_mask_all_false in Hp. rewrite Hp.
    apply Hnil. by rewrite take_mask_all_false.
  - destruct r as [[]|e]; [|done].
    rewrite <- Hlsel at 1 2. rewrite isin_take_mask.
    unfold bind at 1. unfold lift at 1.
    replace (arange (length xs)) with (arange (length (astype_int sel)))
      by (unfold astype_int; by rewrite length_map, Hlsel).
    rewrite fancy_index_arange.
    unfold bind at 1. unfold lift at 1. rewrite fancy_index_eye.
    unfold bind, alloc, ret, copies_world, set_heap. cbn [heap self log].
    rewrite length_app. simpl.
    replace (length (heap w) + 2) with (S (S (length (heap w)))) by lia.
    by rewrite <- app_assoc.
Qed.

Lemma train_run td tl ib bs ep w rows lab ind :
  heap w !! td = Some (Data rows) -> heap w !! tl = Some (Num lab) ->
  heap w !! ib = Some (Num ind) ->
  train td tl ib bs ep w =
    (mkWorld (heap w)
       (set_embed_model (keras_fit (embed_model (self w)) rows lab ind bs ep).1 (self w))
       (log w),
     (keras_fit (embed_model (self w)) rows lab ind bs ep).2).
Proof.
  intros Htd Htl Hib. unfold train.
  rewrite (bind_ok _ _ _ _ _ (load_data_ok _ _ _ Htd)).
  rewrite (bind_ok _ _ _ _ _ (load_num_ok _ _ _ Htl)).
  rewrite (bind_ok _ _ _ _ _ (load_num_ok _ _ _ Hib)).
  unfold bind at 1. unfold get_self at 1.
  by destruct (keras_fit _ rows lab ind bs ep) as [m' [[]|e]].
Qed.

Lemma fit_before_assignment x y bs ep rng w w1 e :
  fit_poison_batch x y rng w = (w1, Raise e) ->
  fit x y bs ep rng w = (w1, Raise e).
Proof. intros Hb. unfold fit. by rewrite (bind_raise _ _ _ _ _ Hb). Qed.

Lemma fit_after_assignment x y bs ep rng w w1 td tl ib rows lab ind :
  fit_poison_batch x y rng w = (w1, Ok (td, tl, ib)) ->
  heap w1 !! td = Some (Data rows) -> heap w1 !! tl = Some (Num lab) ->
  heap w1 !! ib = Some (Num ind) ->
  fit x y bs ep rng w =
    (mkWorld (heap w1)
       (set_embed_model (keras_fit (embed_model (self w1)) rows lab ind bs ep).1
                        (set_training_data td tl ib (self w1)))
       (log w1),
     (keras_fit (embed_model (self w1)) rows lab ind bs ep).2).
Proof.
  intros Hb Htd Htl Hib. unfold fit. rewrite (bind_ok _ _ _ _ _ Hb).
  unfold bind at 1. unfold get_self at 1.
  unfold bind at 1. unfold put_self at 1.
  by rewrite (train_run _ _ _ _ _ _ rows lab ind).
Qed.

Lemma lookup_three {A} (h : list A) a b c :
  (h ++ [a; b; c]) !! length h = Some a /\
  (h ++ [a; b; c]) !! S (length h) = Some b /\
  (h ++ [a; b; c]) !! S (S (length h)) = Some c.
Proof.
  split_and!.
  - by apply list_lookup_middle.
  - change (h ++ [a; b; c]) with (h ++ [a] ++ [b; c]). rewrite app_assoc.
    apply list_lookup_middle. rewrite length_app. simpl. lia.
  - change (h ++ [a; b; c]) with (h ++ [a; b] ++ [c]). rewrite app_assoc.
    apply list_lookup_middle. rewrite length_app. simpl. lia.
Qed.

(** The complete account of a call of [fit] that reaches the assignment. *)
Lemma fit_stored_run w x y bs ep rng xs ys w1 refs :
  heap w !! x = Some (Data xs) -> heap w !! y = Some (Num ys) ->
  fit_poison_batch x y rng w = (w1, Ok refs) ->
  exists sel lab rows' lab',
    let n := length (heap w) in
    let ind := map indicator_row sel in
    let trained := keras_fit (embed_model (self w)) rows' (Arr2 lab') (Arr2 ind) bs ep in
    ys = Arr2 lab /\
    select_indices (length xs) ys (target (self w)) (pp_poison (self w)) rng = Ok sel /\
    length sel = length xs /\ length lab = length xs /\
    length rows' = length xs /\ length lab' = length xs /\
    (forall k, sel !! k = Some false -> rows' !! k = xs !! k /\ lab' !! k = lab !! k) /\
    (sel = replicate (length xs) false -> rows' = xs /\ lab' = lab) /\
    refs = (n, S n, S (S n)) /\
    w1 = mkWorld (heap w ++ [Data rows'; Num (Arr2 lab'); Num (Arr2 ind)])
                 (self w) (log w) /\
    fit x y bs ep rng w =
      (mkWorld (heap w1)
         (set_embed_model trained.1 (set_training_data n (S n) (S (S n)) (self w)))
         (log w),
       trained.2).
Proof.
  intros Hx Hy Hb. pose proof (fit_poison_batch_run w x y rng xs ys Hx Hy) as Hrun.
  destruct (select_indices _ ys _ _ rng) as [sel|e] eqn:Hsel; [|congruence].
  destruct Hrun as (lab & rows' & lab' & r & -> & Hr & Hl & Hkeep & Hnil & Hrun).
  destruct (select_indices_inv _ _ _ _ _ _ Hsel) as (Hlsel & Hllab & _).
  destruct r as [[]|e]; [|congruence].
  rewrite Hrun in Hb. inversion Hb; subst w1 refs; clear Hb.
  exists sel, lab, rows', lab'. cbv zeta. split_and!; try done; try congruence.
  - intros Hs. by destruct (Hnil Hs) as (-> & -> & _).
  - destruct (lookup_three (heap w) (Data rows') (Num (Arr2 lab'))
                (Num (Arr2 (map indicator_row sel)))) as (H0 & H1 & H2).
    by rewrite (fit_after_assignment _ _ _ _ _ _ _ _ _ _ _ _ _ Hrun H0 H1 H2).
Qed.

(** The heap after [fit], however the call ends: the old heap, with the
    fresh arrays of this call behind it. *)
Lemma fit_heap_cases w x y bs ep rng :
  (fit x y bs ep rng w).1 = w \/
  (is_Some (heap w !! x) /\ is_Some (heap w !! y) /\
   exists ext, heap (fit x y bs ep rng w).1 = heap w ++ ext).
Proof.
  destruct (heap w !! x) as [[xs|a]|] eqn:Hx.
  2,3: left; destruct (load_data_fail x w) as [e He]; [intros ?; congruence|];
       rewrite (fit_before_assignment _ _ _ _ _ _ w e); [done|];
       unfold fit_poison_batch; by rewrite (bind_raise _ _ _ _ _ He).
  destruct (heap w !! y) as [[rows|ys]|] eqn:Hy.
  1,3: left; destruct (load_num_fail y w) as [e He]; [intros ?; congruence|];
       rewrite (fit_before_assignment _ _ _ _ _ _ w e); [done|];
       unfold fit_poison_batch;
       rewrite (bind_ok _ _ _ _ _ (load_data_ok _ _ _ Hx));
       by rewrite (bind_raise _ _ _ _ _ He).
  pose proof (fit_poison_batch_run w x y rng xs ys Hx Hy) as Hrun.
  destruct (select_indices _ ys _ _ rng) as [sel|e] eqn:Hsel.
  - right. split_and!; [by eexists | by eexists |].
    destruct Hrun as (lab & rows' & lab' & r & -> & _ & _ & _ & _ & Hrun).
    destruct r as [[]|e].
    + destruct (fit_stored_run _ _ _ bs ep _ _ _ _ _ Hx Hy Hrun)
        as (? & ? & ? & ? & _ & _ & _ & _ & _ & _ & _ & _ & _ & _ & ->).
      cbn [fst heap]. eauto.
    + rewrite (fit_before_assignment _ _ _ _ _ _ _ _ Hrun). cbn [fst heap]. eauto.
  - left. by rewrite (fit_before_assignment _ _ _ _ _ _ _ _ Hrun).
Qed.

End Running.

(** ** The poisoned training set *)

Section Fit.
Context `{Collaborators}.

Lemma get_training_data_self (w1 w2 : world) :
  self w1 = self w2 -> (get_training_data w1).2 = (get_training_data w2).2.
Proof.
  intros Hs. unfold get_training_data, bind, get_self, getattr, ret, raise.
  rewrite Hs.
  by destruct (train_data (self w2)), (train_labels (self w2)), (is_backdoor (self w2)).
Qed.

(** C1: whatever the random draws, a row whose label equals the target is
    not selected by the poison mask, and in the training set that [fit]
    stores its data row and its label row are the caller's, with an
    indicator row that says clean. *)
Theorem fit_never_poisons_target_rows (w : world) x y xs lab bs ep rng w1 refs i :
  heap w !! x = Some (Data xs) ->
  heap w !! y = Some (Num (Arr2 lab)) ->
  fit_poison_batch x y rng w = (w1, Ok refs) ->
  lab !! i = Some (target (self w)) ->
  let w' := (fit x y bs ep rng w).1 in
  exists sel rows' lab' ind,
    select_indices (length xs) (Arr2 lab) (target (self w)) (pp_poison (self w)) rng
      = Ok sel /\
    sel !! i = Some false /\
    get_training_data w' = (w', Ok refs) /\
    heap w' !! refs.1.1 = Some (Data rows') /\
    heap w' !! refs.1.2 = Some (Num (Arr2 lab')) /\
    heap w' !! refs.2 = Some (Num (Arr2 ind)) /\
    rows' !! i = xs !! i /\
    lab' !! i = lab !! i /\
    ind !! i = Some (indicator_row false).
Proof.
  intros Hx Hy Hb Hi w'.
  destruct (fit_stored_run w x y bs ep rng xs (Arr2 lab) w1 refs Hx Hy Hb)
    as (sel & lab0 & rows' & lab' & Hfit). cbv zeta in Hfit.
  destruct Hfit as ([= <-] & Hsel & Hlsel & Hllab & Hr & Hl & Hkeep & _ & -> & -> & Hfit).
  destruct (select_indices_inv _ _ _ _ _ _ Hsel) as (_ & _ & Htarget).
  pose proof (Htarget i Hi) as Hsi. destruct (Hkeep i Hsi) as [Hrow Hlabel].
  exists sel, rows', lab', (map indicator_row sel).
  unfold w'. rewrite Hfit. cbn [fst snd heap].
  destruct (lookup_three (heap w) (Data rows') (Num (Arr2 lab'))
              (Num (Arr2 (map indicator_row sel)))) as (H0 & H1 & H2).
  split_and!; try done.
  rewrite list_lookup_fmap, Hsi. done.
Qed.

(** C2, as amended: with a poison rate of zero, and labels on which the
    mask is defined, the poison mask is all false and the backdoor
    transform is handed the empty batch.  When it returns, the stored
    training set is the caller's data and labels with an indicator that
    says clean in every row, and the training call of the combined model
    receives exactly these; when it raises, [fit] raises the same
    exception after the two copies were made, stores nothing and does not
    train. *)
Theorem fit_with_zero_poison_rate (w : world) x y xs lab bs ep rng :
  heap w !! x = Some (Data xs) ->
  heap w !! y = Some (Num (Arr2 lab)) ->
  is_ok (eq_broadcast (Arr2 lab) (target (self w))) = true ->
  length lab = length xs ->
  (pp_poison (self w) == 0)%Q ->
  (forall k, (0 <= rng k)%Q) ->
  let n := length (heap w) in
  let clean := Arr2 (replicate (length xs) (indicator_row false)) in
  let trained := keras_fit (embed_model (self w)) xs (Arr2 lab) clean bs ep in
  select_indices (length xs) (Arr2 lab) (target (self w)) (pp_poison (self w)) rng
    = Ok (replicate (length xs) false) /\
  fit x y bs ep rng w =
    match poison [] (target (self w)) with
    | Ok _ =>
        (mkWorld (heap w ++ [Data xs; Num (Arr2 lab); Num clean])
           (set_embed_model trained.1 (set_training_data n (S n) (S (S n)) (self w)))
           (log w),
         trained.2)
    | Raise e =>
        (mkWorld (heap w ++ [Data xs; Num (Arr2 lab)]) (self w) (log w), Raise e)
    end.
Proof.
  intros Hx Hy Hok Hlen Hpp Hrng n clean trained.
  pose proof (select_indices_zero _ _ _ _ _ Hok Hlen Hpp Hrng) as Hsel.
  split; [done|].
  pose proof (fit_poison_batch_run w x y rng xs (Arr2 lab) Hx Hy) as Hrun.
  rewrite Hsel in Hrun.
  destruct Hrun as (lab0 & rows' & lab' & r & [= <-] & _ & _ & _ & Hnil & Hrun).
  destruct (Hnil eq_refl) as (-> & -> & ->).
  destruct (poison [] (target (self w))) as [p|e]; simpl in Hrun.
  - destruct (fit_stored_run w x y bs ep rng xs (Arr2 lab) _ _ Hx Hy Hrun)
      as (sel & lab1 & rows1 & lab1' & Hfit). cbv zeta in Hfit.
    destruct Hfit as ([= <-] & Hsel' & _ & _ & _ & _ & _ & Hsame & _ & _ & Hfit).
    rewrite Hsel in Hsel'. inversion Hsel'; subst sel.
    destruct (Hsame eq_refl) as [-> ->].
    rewrite Hfit. cbn [heap].
    change (map indicator_row (replicate (length xs) false))
      with (indicator_row <$> replicate (length xs) false).
    by rewrite fmap_replicate.
  - by apply fit_before_assignment.
Qed.

(** C3: [fit] never writes through the caller's references: however the
    call ends, [x] and [y] hold what they held, and so does every object
    that existed before the call. *)
Theorem fit_leaves_caller_arrays (w : world) x y bs ep rng :
  let w' := (fit x y bs ep rng w).1 in
  heap w' !! x = heap w !! x /\
  heap w' !! y = heap w !! y /\
  forall l o, heap w !! l = Some o -> heap w' !! l = Some o.
Proof.
  intros w'. unfold w'.
  destruct (fit_heap_cases w x y bs ep rng) as [->|([ox Hx] & [oy Hy] & ext & ->)];
    [done|].
  split_and!.
  - rewrite Hx. by apply lookup_app_l_Some.
  - rewrite Hy. by apply lookup_app_l_Some.
  - intros l o Hl. by apply lookup_app_l_Some.
Qed.

(** C8: after a call of [fit] that reached the assignment,
    [get_training_data] returns the three references of that call, each to
    an array whose first dimension is the number of samples of the batch; a
    call that raised before the assignment leaves the answer as it was; and
    on a freshly constructed estimator [get_training_data] raises. *)
Theorem get_training_data_returns_last_batch :
  (forall (w : world) x y xs ys bs ep rng w1 refs,
      heap w !! x = Some (Data xs) -> heap w !! y = Some (Num ys) ->
      fit_poison_batch x y rng w = (w1, Ok refs) ->
      let w' := (fit x y bs ep rng w).1 in
      exists rows lab ind,
        get_training_data w' = (w', Ok refs) /\
        heap w' !! refs.1.1 = Some (Data rows) /\
        heap w' !! refs.1.2 = Some (Num lab) /\
        heap w' !! refs.2 = Some (Num ind) /\
        length rows = length xs /\ len lab = length xs /\ len ind = length xs) /\
  (forall (w : world) x y xs ys bs ep rng w1 e,
      heap w !! x = Some (Data xs) -> heap w !! y = Some (Num ys) ->
      fit_poison_batch x y rng w = (w1, Raise e) ->
      let w' := (fit x y bs ep rng w).1 in
      (get_training_data w').2 = (get_training_data w).2) /\
  (forall model feature_layer tgt pp d1 d2 reg vb thr me h lg,
      init model feature_layer tgt pp d1 d2 reg vb thr = Ok me ->
      get_training_data (mkWorld h me lg) = (mkWorld h me lg, Raise AttributeError)).
Proof.
  split_and!.
  - intros w x y xs ys bs ep rng w1 refs Hx Hy Hb w'.
    destruct (fit_stored_run w x y bs ep rng xs ys w1 refs Hx Hy Hb)
      as (sel & lab & rows' & lab' & Hfit). cbv zeta in Hfit.
    destruct Hfit as (-> & _ & Hlsel & _ & Hr & Hl & _ & _ & -> & -> & Hfit).
    exists rows', (Arr2 lab'), (Arr2 (map indicator_row sel)).
    unfold w'. rewrite Hfit. cbn [fst snd heap len].
    destruct (lookup_three (heap w) (Data rows') (Num (Arr2 lab'))
                (Num (Arr2 (map indicator_row sel)))) as (H0 & H1 & H2).
    split_and!; try done. by rewrite length_map.
  - intros w x y xs ys bs ep rng w1 e Hx Hy Hb w'. unfold w'.
    rewrite (fit_before_assignment _ _ _ _ _ _ _ _ Hb). cbn [fst].
    pose proof (fit_poison_batch_run w x y rng xs ys Hx Hy) as Hrun.
    assert (self w1 = self w) as Hself.
    { destruct (select_indices _ ys _ _ rng) as [sel|e'].
      - destruct Hrun as (lab & rows' & lab' & r & _ & _ & _ & _ & _ & Hrun).
        rewrite Hrun in Hb. destruct r as [[]|e']; [done|]. by inversion Hb.
      - rewrite Hrun in Hb. by inversion Hb. }
    by apply get_training_data_self.
  - intros model feature_layer tgt pp d1 d2 reg vb thr me h lg Hinit.
    unfold init in Hinit.
    destruct (build_embed_model _ _ _ _ _) as [cm|e]; simpl in Hinit; [|done].
    by inversion Hinit.
Qed.

(** C10: the assignment to [self] comes before the training call, so when
    that call raises, [fit] raises the same exception and the estimator
    already holds the references of the new batch, which were allocated in
    this very call; [get_training_data] answers with them. *)
Theorem fit_failure_keeps_new_batch (w : world) x y xs ys bs ep rng w1 td tl ib
    rows lab ind m' e :
  heap w !! x = Some (Data xs) -> heap w !! y = Some (Num ys) ->
  fit_poison_batch x y rng w = (w1, Ok (td, tl, ib)) ->
  heap w1 !! td = Some (Data rows) ->
  heap w1 !! tl = Some (Num lab) ->
  heap w1 !! ib = Some (Num ind) ->
  keras_fit (embed_model (self w)) rows lab ind bs ep = (m', Raise e) ->
  let w' := (fit x y bs ep rng w).1 in
  (fit x y bs ep rng w).2 = Raise e /\
  get_training_data w' = (w', Ok (td, tl, ib)) /\
  heap w' = heap w1 /\
  length (heap w) <= td /\ length (heap w) <= tl /\ length (heap w) <= ib.
Proof.
  intros Hx Hy Hb Htd Htl Hib Hfail w'.
  destruct (fit_stored_run w x y bs ep rng xs ys w1 _ Hx Hy Hb)
    as (sel & lab0 & rows' & lab' & Hfit). cbv zeta in Hfit.
  destruct Hfit as (_ & _ & _ & _ & _ & _ & _ & _ & [= -> -> ->] & Hw1 & _).
  assert (self w1 = self w) as Hself by (by rewrite Hw1).
  unfold w'.
  rewrite (fit_after_assignment _ _ _ _ _ _ _ _ _ _ _ _ _ Hb Htd Htl Hib).
  rewrite Hself, Hfail. cbn [fst snd heap]. split_and!; try done; lia.
Qed.

(** C9: the claim has [fit] accept labels in index form; the code does
    not.  For every one-dimensional label array the mask computation
    raises (axis 1 does not exist on the comparison of two one-dimensional
    arrays, or the two do not broadcast), [fit] ends there and the world
    is as it was. *)
Theorem fit_index_form_raises (w : world) x y xs v bs ep rng :
  heap w !! x = Some (Data xs) ->
  heap w !! y = Some (Num (Arr1 v)) ->
  exists e, fit x y bs ep rng w = (w, Raise e) /\ (e = AxisError \/ e = ValueError).
Proof.
  intros Hx Hy.
  pose proof (fit_poison_batch_run w x y rng xs (Arr1 v) Hx Hy) as Hrun.
  destruct (select_indices_index_form (length xs) v (target (self w))
              (pp_poison (self w)) rng) as (e & He & Hkind).
  rewrite He in Hrun. exists e. split; [|done].
  by apply fit_before_assignment.
Qed.

End Fit.

(** ** Prediction and the gradient accessors *)

Section Accessors.
Context `{Collaborators}.

Lemma predict_quiet (w : world) x bs :
  verbose (self w) = false ->
  predict x bs w =
    (w, result_bind (apply_preprocessing x) (fun x_preprocessed =>
        result_bind (keras_predict (embed_model (self w)) x_preprocessed bs)
          (fun outs => apply_postprocessing outs.1))).
Proof.
  intros Hv. unfold predict, bind, lift, get_self, ret.
  destruct (apply_preprocessing x) as [xp|e]; [|done]. simpl.
  destruct (keras_predict _ xp bs) as [[task bp]|e]; [|done]. simpl.
  by rewrite Hv.
Qed.

(** In verbose mode a two-dimensional discriminator output with an entry
    above the threshold ends [predict] with an [IndexError], after two
    warnings and before any prediction is returned. *)
Lemma predict_verbose_suspects (w : world) x bs xp task bp :
  verbose (self w) = true ->
  apply_preprocessing x = Ok xp ->
  keras_predict (embed_model (self w)) xp bs = Ok (task, Arr2 bp) ->
  np_any (array_map (fun p => Qltb (detect_threshold (self w)) p) (Arr2 bp)) = true ->
  exists msg,
    predict x bs w =
      (mkWorld (heap w) (self w)
               (log w ++ [Warning msg; Warning "Suspected indices:"]),
       Raise IndexError).
Proof.
  intros Hv Hpre Hpred Hany. eexists.
  unfold predict, bind, lift, get_self, ret. rewrite Hpre, Hpred, Hv, Hany.
  unfold warn. cbn [heap self log array_map getitem_bool].
  by rewrite <- app_assoc.
Qed.

(** C5: the claim has verbose mode leave the returned predictions alone;
    the code does not.  When the discriminator output, a two-column array,
    has an entry above the threshold, the quiet estimator returns the
    postprocessed task predictions, and the verbose estimator logs two
    warnings and raises [IndexError] instead of returning. *)
Theorem predict_verbose_prevents_predictions (w : world) x bs xp task bp :
  apply_preprocessing x = Ok xp ->
  keras_predict (embed_model (self w)) xp bs = Ok (task, Arr2 bp) ->
  np_any (array_map (fun p => Qltb (detect_threshold (self w)) p) (Arr2 bp)) = true ->
  (verbose (self w) = false ->
   predict x bs w = (w, apply_postprocessing task)) /\
  (verbose (self w) = true ->
   exists msg,
     predict x bs w =
       (mkWorld (heap w) (self w)
                (log w ++ [Warning msg; Warning "Suspected indices:"]),
        Raise IndexError)).
Proof.
  intros Hpre Hpred Hany. split; intros Hv.
  - rewrite (predict_quiet _ _ _ Hv), Hpre. simpl. by rewrite Hpred.
  - by apply (predict_verbose_suspects w x bs xp task bp).
Qed.

(** C7: [class_gradient] never returns: whenever the parent's
    [class_gradient] hands back a gradient, that gradient is raised and the
    result is a [TypeError]; [loss_gradient] returns what the parent's
    [loss_gradient] returns. *)
Theorem class_gradient_never_returns (w : world) x label :
  (forall w' g, class_gradient x label w <> (w', Ok g)) /\
  (forall g, base_class_gradient (embed_model (self w)) x label = Ok g ->
             class_gradient x label w = (w, Raise TypeError)) /\
  (forall y, loss_gradient x y w = (w, base_loss_gradient (embed_model (self w)) x y)).
Proof.
  unfold class_gradient, loss_gradient, bind, get_self, lift, raise_value, raise.
  split_and!.
  - intros w' g. by destruct (base_class_gradient _ x label).
  - by intros g ->.
  - done.
Qed.

End Accessors.

(** ** The constructor *)

Section Constructor.
Context `{Collaborators}.

Lemma feature_layer_unused model fl fl' :
  feature_layer_output model fl = feature_layer_output model fl'.
Proof. done. Qed.

(** X1: for a base model without extra losses, whose name is not the name of
    the discriminator output, the arguments of [compile] are the base
    model's loss under the base model's name, binary cross-entropy under
    [backdoor_detect], and the weights 1 and minus the regularization. *)
Lemma compiled_objective_plain model fl d1 d2 reg :
  losses model = [] ->
  name model <> "backdoor_detect" ->
  is_ok (getitem (layers model) 5) = true ->
  exists cm,
    build_embed_model model fl d1 d2 reg = Ok cm /\
    cm_loss cm !! name model = Some (loss model) /\
    cm_loss cm !! "backdoor_detect" = Some (LossName "binary_crossentropy") /\
    dom (cm_loss cm) = {[name model; "backdoor_detect"]} /\
    cm_loss_weights cm !! name model = Some 1%Q /\
    cm_loss_weights cm !! "backdoor_detect" = Some (Qopp reg) /\
    dom (cm_loss_weights cm) = {[name model; "backdoor_detect"]}.
Proof.
  intros Hlosses Hname Hlayer.
  unfold build_embed_model, feature_layer_output, loss_dict.
  destruct (getitem (layers model) 5) as [layer5|e]; [|done]. rewrite Hlosses.
  eexists. split; [reflexivity|]. cbn [cm_loss cm_loss_weights].
  split_and!.
  - by rewrite lookup_insert_ne, lookup_insert_eq.
  - by rewrite lookup_insert_eq.
  - rewrite !dom_insert_L, dom_empty_L, (right_id_L ∅ (∪)). apply (comm_L (∪)).
  - by rewrite lookup_insert_ne, lookup_insert_eq.
  - by rewrite lookup_insert_eq.
  - rewrite !dom_insert_L, dom_empty_L, (right_id_L ∅ (∪)). apply (comm_L (∪)).
Qed.

End Constructor.

#[local] Existing Instance Examples.toy.

(** C4: the claim has the discriminator read from the layer that
    [feature_layer] designates; the constructor reads from layer 5 whatever
    the argument.  On the eight-layer classifier, asked for [flatten_1]
    (layer 4), it builds the sub-model that ends in [dense_1] (layer 5). *)
Theorem feature_layer_argument_ignored :
  (forall model fl,
      feature_layer_output model fl =
        result_map (fun l => SubModel (input model) (output l))
                   (getitem (layers model) 5)) /\
  designated_layer Examples.cnn (ByName "flatten_1")
    = Some (mkLayer "flatten_1" (Sym "flatten_1/Reshape")) /\
  designated_layer Examples.cnn (ByIndex 4)
    = Some (mkLayer "flatten_1" (Sym "flatten_1/Reshape")) /\
  feature_layer_output Examples.cnn (ByName "flatten_1")
    = Ok (SubModel (Sym "conv2d_1_input") (Sym "dense_1/Relu")) /\
  feature_layer_output Examples.cnn (ByIndex 4)
    = Ok (SubModel (Sym "conv2d_1_input") (Sym "dense_1/Relu")).
Proof. split_and!; done. Qed.

(** C6: the claim has the compiled objective apply the base model's loss
    to the task output; for a base model with an entry in [model.losses]
    the code does not.  Whatever the framework answers when a symbolic
    tensor is unpacked, the constructor then either raises or compiles a
    loss dictionary without an entry for the task output; with a framework
    that refuses the unpacking it raises [TypeError]. *)
Theorem regularized_model_loses_task_loss `{Collaborators} fl d1 d2 reg :
  match build_embed_model Examples.cnn_regularized fl d1 d2 reg with
  | Ok cm => cm_loss cm !! name Examples.cnn_regularized = None
  | Raise _ => True
  end /\
  build_embed_model (H := Examples.toy) Examples.cnn_regularized fl d1 d2 reg
    = Raise TypeError.
Proof.
  split; [|done].
  unfold build_embed_model, feature_layer_output, loss_dict. simpl.
  destruct (unpack_pair (Sym "dense_2/Softmax")) as [[i l]|e]; simpl; [|done].
  rewrite lookup_insert_ne by done.
  rewrite lookup_insert_ne by done.
  apply lookup_empty.
Qed.

(** ** The theorems at concrete inputs *)

Lemma fit_never_poisons_target_rows_witness :
  exists sel rows' lab' ind,
    select_indices 4 (Arr2 Examples.y4) [1; 0]%Z (1 # 2) Examples.low_draws = Ok sel /\
    sel !! 1 = Some false /\
    get_training_data (fit 0 1 64 10 Examples.low_draws (Examples.toy_world (1 # 2) false)).1
      = ((fit 0 1 64 10 Examples.low_draws (Examples.toy_world (1 # 2) false)).1,
         Ok (3, 4, 5)) /\
    heap (fit 0 1 64 10 Examples.low_draws (Examples.toy_world (1 # 2) false)).1 !! 3
      = Some (Data rows') /\
    heap (fit 0 1 64 10 Examples.low_draws (Examples.toy_world (1 # 2) false)).1 !! 4
      = Some (Num (Arr2 lab')) /\
    heap (fit 0 1 64 10 Examples.low_draws (Examples.toy_world (1 # 2) false)).1 !! 5
      = Some (Num (Arr2 ind)) /\
    rows' !! 1 = Examples.x4 !! 1 /\
    lab' !! 1 = Examples.y4 !! 1 /\
    ind !! 1 = Some (indicator_row false).
Proof.
  apply (fit_never_poisons_target_rows (Examples.toy_world (1 # 2) false) 0 1
           Examples.x4 Examples.y4 64 10 Examples.low_draws
           (fit_poison_batch 0 1 Examples.low_draws (Examples.toy_world (1 # 2) false)).1
           (3, 4, 5) 1); reflexivity.
Defined.

Lemma fit_with_zero_poison_rate_witness :
  select_indices 4 (Arr2 Examples.y4) [1; 0]%Z 0 Examples.low_draws
    = Ok (replicate 4 false) /\
  fit 0 1 64 10 Examples.low_draws (Examples.toy_world 0 false) =
    (mkWorld (heap (Examples.toy_world 0 false)
                ++ [Data Examples.x4; Num (Arr2 Examples.y4);
                    Num (Arr2 (replicate 4 (indicator_row false)))])
       (set_embed_model 1
          (set_training_data 3 4 5 (self (Examples.toy_world 0 false))))
       [],
     Ok tt).
Proof.
  apply (fit_with_zero_poison_rate (Examples.toy_world 0 false) 0 1
           Examples.x4 Examples.y4 64 10 Examples.low_draws);
    try reflexivity.
  intros k. vm_compute. discriminate.
Defined.

(** C2, as the claim has it, fails: with a poison rate of zero, a mask
    that is defined and all false, and a transform that refuses the empty
    batch, [fit] raises [ValueError]; no training set is stored and the
    combined model is not trained. *)
Lemma fit_with_zero_poison_rate_counterexample :
  (pp_poison (self MoreExamples.strict_world) == 0)%Q /\
  select_indices 4 (Arr2 Examples.y4) [1; 0]%Z 0 Examples.low_draws
    = Ok (replicate 4 false) /\
  fit 0 1 64 10 Examples.low_draws MoreExamples.strict_world
    = (mkWorld (heap MoreExamples.strict_world
                  ++ [@Data MoreExamples.strict_transform Examples.x4;
                      @Num MoreExamples.strict_transform (Arr2 Examples.y4)])
               (self MoreExamples.strict_world) [],
       Raise ValueError) /\
  embed_model (self (fit 0 1 64 10 Examples.low_draws MoreExamples.strict_world).1)
    = embed_model (self MoreExamples.strict_world) /\
  (get_training_data
     (fit 0 1 64 10 Examples.low_draws MoreExamples.strict_world).1).2
    = Raise AttributeError /\
  ~ (exists w', fit 0 1 64 10 Examples.low_draws MoreExamples.strict_world
                = (w', Ok tt)).
Proof.
  split_and!; try reflexivity.
  intros [w' Hw']. discriminate Hw'.
Qed.

Lemma predict_verbose_prevents_predictions_witness :
  predict [10; 60]%Z 128 (Examples.toy_world (1 # 2) false)
    = (Examples.toy_world (1 # 2) false,
       Ok (Arr2 [[1 # 2; 1 # 2]; [1 # 2; 1 # 2]]%Q)) /\
  exists msg,
    predict [10; 60]%Z 128 (Examples.toy_world (1 # 2) true)
      = (mkWorld (heap (Examples.toy_world (1 # 2) true))
                 (self (Examples.toy_world (1 # 2) true))
                 ([] ++ [Warning msg; Warning "Suspected indices:"]),
         Raise IndexError).
Proof.
  split.
  - apply (predict_verbose_prevents_predictions (Examples.toy_world (1 # 2) false)
             [10; 60]%Z 128 [10; 60]%Z
             (Arr2 [[1 # 2; 1 # 2]; [1 # 2; 1 # 2]]%Q)
             [[1 # 2; 1 # 2]; [1 # 10; 9 # 10]]%Q); reflexivity.
  - apply (predict_verbose_prevents_predictions (Examples.toy_world (1 # 2) true)
             [10; 60]%Z 128 [10; 60]%Z
             (Arr2 [[1 # 2; 1 # 2]; [1 # 2; 1 # 2]]%Q)
             [[1 # 2; 1 # 2]; [1 # 10; 9 # 10]]%Q); reflexivity.
Defined.

(** The two warnings that the verbose estimator leaves in the log. *)
Example predict_verbose_log :
  predict [10; 60]%Z 128 (Examples.toy_world (1 # 2) true)
    = (mkWorld (heap (Examples.toy_world (1 # 2) true))
               (self (Examples.toy_world (1 # 2) true))
               [Warning "Found 1 suspected backdoors in prediction";
                Warning "Suspected indices:"],
       Raise IndexError).
Proof. vm_compute. reflexivity. Qed.

Lemma fit_leaves_caller_arrays_witness :
  heap (fit 0 1 64 10 Examples.low_draws (Examples.toy_world (1 # 2) false)).1 !! 0
    = Some (Data Examples.x4) /\
  heap (fit 0 1 64 10 Examples.low_draws (Examples.toy_world (1 # 2) false)).1 !! 1
    = Some (Num (Arr2 Examples.y4)).
Proof.
  destruct (fit_leaves_caller_arrays (Examples.toy_world (1 # 2) false) 0 1 64 10
              Examples.low_draws) as (Hx & Hy & _).
  split; [exact Hx | exact Hy].
Defined.

Lemma class_gradient_never_returns_witness :
  class_gradient [10; 60]%Z None (Examples.toy_world (1 # 2) false)
    = (Examples.toy_world (1 # 2) false, Raise TypeError) /\
  loss_gradient [10; 60]%Z (Arr2 Examples.y4) (Examples.toy_world (1 # 2) false)
    = (Examples.toy_world (1 # 2) false, Ok [10; 60]%Z).
Proof.
  destruct (class_gradient_never_returns (Examples.toy_world (1 # 2) false)
              [10; 60]%Z None) as (_ & Hraise & Hloss).
  split; [exact (Hraise [10; 60]%Z eq_refl) | exact (Hloss (Arr2 Examples.y4))].
Defined.

Lemma get_training_data_returns_last_batch_witness :
  (exists rows lab ind,
      get_training_data
        (fit 0 1 64 10 Examples.low_draws (Examples.toy_world (1 # 2) false)).1
        = ((fit 0 1 64 10 Examples.low_draws (Examples.toy_world (1 # 2) false)).1,
           Ok (3, 4, 5)) /\
      heap (fit 0 1 64 10 Examples.low_draws (Examples.toy_world (1 # 2) false)).1 !! 3
        = Some (Data rows) /\
      heap (fit 0 1 64 10 Examples.low_draws (Examples.toy_world (1 # 2) false)).1 !! 4
        = Some (Num lab) /\
      heap (fit 0 1 64 10 Examples.low_draws (Examples.toy_world (1 # 2) false)).1 !! 5
        = Some (Num ind) /\
      length rows = 4 /\ len lab = 4 /\ len ind = 4) /\
  (get_training_data
     (fit 0 2 64 10 Examples.low_draws (Examples.toy_world (1 # 2) false)).1).2
    = Raise AttributeError /\
  (forall me,
      init (H := Examples.toy) Examples.cnn (ByIndex 5) [1; 0]%Z (1 # 2) 256 128 10
           false (8 # 10) = Ok me ->
      get_training_data (mkWorld [] me []) = (mkWorld [] me [], Raise AttributeError)).
Proof.
  destruct (get_training_data_returns_last_batch (H := Examples.toy))
    as (Hstored & Hearly & Hfresh).
  split_and!.
  - apply (Hstored (Examples.toy_world (1 # 2) false) 0 1 Examples.x4
             (Arr2 Examples.y4) 64 10 Examples.low_draws
             (fit_poison_batch 0 1 Examples.low_draws
                (Examples.toy_world (1 # 2) false)).1 (3, 4, 5)); reflexivity.
  - apply (Hearly (Examples.toy_world (1 # 2) false) 0 2 Examples.x4
             (Arr1 [1; 0; 1; 0]%Z) 64 10 Examples.low_draws
             (Examples.toy_world (1 # 2) false) ValueError); reflexivity.
  - intros me. apply Hfresh.
Defined.

Lemma fit_index_form_raises_witness :
  exists e,
    fit 0 2 64 10 Examples.low_draws Examples.index_world
      = (Examples.index_world, Raise e) /\
    (e = AxisError \/ e = ValueError).
Proof.
  apply (fit_index_form_raises Examples.index_world 0 2 Examples.x4
           [1; 0; 1; 0]%Z 64 10 Examples.low_draws); reflexivity.
Defined.

Lemma fit_failure_keeps_new_batch_witness :
  (fit 0 1 64 10 Examples.low_draws (Examples.failing_world (1 # 2))).2
    = Raise (External "fit") /\
  get_training_data
    (fit 0 1 64 10 Examples.low_draws (Examples.failing_world (1 # 2))).1
    = ((fit 0 1 64 10 Examples.low_draws (Examples.failing_world (1 # 2))).1,
       Ok (3, 4, 5)) /\
  heap (fit 0 1 64 10 Examples.low_draws (Examples.failing_world (1 # 2))).1
    = heap (fit_poison_batch 0 1 Examples.low_draws (Examples.failing_world (1 # 2))).1 /\
  3 <= 3 /\ 3 <= 4 /\ 3 <= 5.
Proof.
  apply (fit_failure_keeps_new_batch (H := Examples.failing_training)
           (Examples.failing_world (1 # 2)) 0 1 Examples.x4 (Arr2 Examples.y4)
           64 10 Examples.low_draws
           (fit_poison_batch 0 1 Examples.low_draws (Examples.failing_world (1 # 2))).1
           3 4 5
           [110; 20; 130; 40]%Z
           (Arr2 [[1; 0]; [1; 0]; [1; 0]; [1; 0]]%Z)
           (Arr2 [[0; 1]; [1; 0]; [0; 1]; [1; 0]]%Z)
           0 (External "fit")); reflexivity.
Defined.

(** The exception on labels in index form with a class index as target. *)
Example fit_index_form_axis_error :
  fit 0 2 64 10 Examples.low_draws Examples.index_world
    = (Examples.index_world, Raise AxisError).
Proof. reflexivity. Qed.

(** With a poison rate of one half and draws below it, rows 0 and 2 are
    poisoned and rows 1 and 3, labelled with the target, are not. *)
Example fit_poisons_other_rows :
  heap (fit 0 1 64 10 Examples.low_draws (Examples.toy_world (1 # 2) false)).1
    = [Data Examples.x4; Num (Arr2 Examples.y4); Num (Arr1 [1; 0; 1; 0]%Z);
       Data [110; 20; 130; 40]%Z;
       Num (Arr2 [[1; 0]; [1; 0]; [1; 0]; [1; 0]]%Z);
       Num (Arr2 [[0; 1]; [1; 0]; [0; 1]; [1; 0]]%Z)].
Proof. reflexivity. Qed.

(** With draws above the poison rate no row is poisoned. *)
Example fit_high_draws_poison_nothing :
  heap (fit 0 1 64 10 Examples.high_draws (Examples.toy_world (1 # 2) false)).1
    = [Data Examples.x4; Num (Arr2 Examples.y4); Num (Arr1 [1; 0; 1; 0]%Z);
       Data Examples.x4; Num (Arr2 Examples.y4);
       Num (Arr2 [[1; 0]; [1; 0]; [1; 0]; [1; 0]]%Z)].
Proof. reflexivity. Qed.

Lemma compiled_objective_plain_witness :
  exists cm,
    build_embed_model (H := Examples.toy) Examples.cnn (ByIndex 5) 256 128 10 = Ok cm /\
    cm_loss cm !! "sequential_1" = Some (LossName "categorical_crossentropy") /\
    cm_loss cm !! "backdoor_detect" = Some (LossName "binary_crossentropy") /\
    dom (cm_loss cm) = {["sequential_1"; "backdoor_detect"]} /\
    cm_loss_weights cm !! "sequential_1" = Some 1%Q /\
    cm_loss_weights cm !! "backdoor_detect" = Some (Qopp 10) /\
    dom (cm_loss_weights cm) = {["sequential_1"; "backdoor_detect"]}.
Proof.
  apply (compiled_objective_plain (H := Examples.toy) Examples.cnn (ByIndex 5)
           256 128 10); [reflexivity | discriminate | reflexivity].
Defined.

(** * Further properties of the methods *)

(** ** More about masks *)

Lemma count_true_cons (b : bool) (l : list bool) :
  count_true (b :: l) = (if b then S (count_true l) else count_true l).
Proof. unfold count_true. by destruct b. Qed.

Lemma length_take_mask {A} (a : list A) (mask : list bool) :
  length mask = length a -> length (take_mask a mask) = count_true mask.
Proof.
  revert mask. induction a as [|ai a IH]; intros [|b mask] Hlen; try done.
  simpl in Hlen. rewrite count_true_cons. simpl.
  destruct b; simpl; rewrite IH; auto with lia.
Qed.

Lemma take_mask_sublist {A} (a : list A) (mask : list bool) :
  take_mask a mask `sublist_of` a.
Proof.
  revert mask. induction a as [|ai a IH]; intros [|b mask]; simpl.
  - done.
  - done.
  - apply sublist_nil_l.
  - destruct b; [by apply sublist_skip | by apply sublist_cons].
Qed.

Lemma NoDup_take_mask_arange (n : nat) (mask : list bool) :
  NoDup (take_mask (arange n) mask).
Proof.
  eapply sublist_NoDup; [apply NoDup_seq | apply take_mask_sublist].
Qed.

(** The j-th selected index points at the j-th row handed to the
    transform. *)
Lemma take_mask_lookup_seq {A} (a : list A) (mask : list bool) s j idx :
  take_mask (seq s (length a)) mask !! j = Some idx ->
  exists k, idx = s + k /\ take_mask a mask !! j = a !! k /\ mask !! k = Some true.
Proof.
  revert mask s j. induction a as [|ai a IH]; intros mask s j; simpl.
  - by destruct mask.
  - destruct mask as [|b mask]; [done|]. destruct b.
    + destruct j as [|j]; simpl.
      * intros [= <-]. exists 0. split_and!; [lia|done|done].
      * intros Hj. destruct (IH mask (S s) j Hj) as (k & -> & Hk & Hm).
        exists (S k). split_and!; [lia|done|done].
    + intros Hj. destruct (IH mask (S s) j Hj) as (k & -> & Hk & Hm).
      exists (S k). split_and!; [lia|done|done].
Qed.

Lemma put_mask_all_true (mask : list bool) :
  put_mask (replicate (length mask) false) mask (replicate (count_true mask) true)
    = mask.
Proof.
  induction mask as [|b mask IH]; [done|].
  rewrite count_true_cons. destruct b; simpl; by rewrite IH.
Qed.

Lemma forallb_zip_eqb (r t : list Z) :
  length r = length t ->
  forallb id (zip_with Z.eqb r t) = bool_decide (r = t).
Proof.
  revert t. induction r as [|a r IH]; intros [|b t] Hlen; try done.
  simpl in *. rewrite IH by lia.
  destruct (Z.eqb_spec a b) as [->|Hne]; simpl.
  - destruct (decide (r = t)) as [->|Hrt].
    + by rewrite !bool_decide_eq_true_2.
    + rewrite !bool_decide_eq_false_2; [done| congruence |done].
  - rewrite bool_decide_eq_false_2; [done|congruence].
Qed.

(** Rows of the width of the target compare entry by entry. *)
Lemma traverse_rows_same_width (lab : list (list Z)) (t : list Z) :
  Forall (fun r => length r = length t) lab ->
  traverse (fun r => broadcast2 Z.eqb r t) lab
    = Ok (map (fun r => zip_with Z.eqb r t) lab).
Proof.
  induction 1 as [|r lab Hr _ IH]; simpl; [done|].
  unfold broadcast2 at 1. rewrite decide_True by done. simpl. by rewrite IH.
Qed.

Lemma Qltb_full (u p : Q) : (u < 1)%Q -> (1 <= p)%Q -> Qltb u p = true.
Proof.
  intros Hu Hp. unfold Qltb. apply negb_true_iff.
  destruct (Qle_bool p u) eqn:Hle; [|done].
  apply Qle_bool_iff in Hle. exfalso.
  apply (Qlt_irrefl u). eapply Qlt_le_trans; [exact Hu|].
  by eapply Qle_trans.
Qed.

(** The mask is defined as soon as the comparison with the target
    broadcasts and [y] has as many rows as [x]. *)
Lemma select_indices_defined n (lab : list (list Z)) t pp rng :
  is_ok (eq_broadcast (Arr2 lab) t) = true -> length lab = n ->
  exists sel, select_indices n (Arr2 lab) t pp rng = Ok sel.
Proof.
  intros Hok Hn. unfold select_indices.
  destruct (eq_broadcast (Arr2 lab) t) as [bm|e] eqn:Hbm; [|done]. simpl.
  unfold eq_broadcast, result_map in Hbm.
  destruct (traverse _ lab) as [rows|e] eqn:Hrows; simpl in Hbm; [|done].
  inversion Hbm; subst bm. simpl.
  destruct (traverse_lookup _ _ _ Hrows) as [Hlen _].
  unfold setitem_mask, logical_not.
  rewrite !length_map, length_replicate, length_seq, Hlen.
  rewrite !decide_True by done. eauto.
Qed.

Lemma map_const_replicate {A B} (f : A -> B) (v : B) (l : list A) :
  (forall a, f a = v) -> map f l = replicate (length l) v.
Proof. intros Hf. induction l as [|a l IH]; simpl; [done|]. by rewrite Hf, IH. Qed.

(** X2: with a poison rate of at least one, draws below one and label rows
    of the width of the target, the mask of lines 197-199 selects exactly
    the rows that differ from the target. *)
Theorem select_indices_full_rate n (lab : list (list Z)) t pp rng :
  Forall (fun r => length r = length t) lab ->
  length lab = n ->
  (1 <= pp)%Q ->
  (forall k, (rng k < 1)%Q) ->
  select_indices n (Arr2 lab) t pp rng = Ok (map (fun r => bool_decide (r <> t)) lab).
Proof.
  intros Hwidth Hn Hpp Hrng. unfold select_indices, eq_broadcast, result_map.
  rewrite (traverse_rows_same_width _ _ Hwidth). simpl.
  unfold setitem_mask, logical_not.
  rewrite !length_map, length_replicate, length_seq.
  rewrite !decide_True by done. f_equal.
  set (mask := map negb (map (forallb id) (map (fun r => zip_with Z.eqb r t) lab))).
  rewrite (map_map rng (fun u => Qltb u pp)).
  rewrite (map_const_replicate (fun k => Qltb (rng k) pp) true)
    by (intros k; by apply Qltb_full).
  rewrite length_seq.
  assert (n = length mask) as -> by (unfold mask; by rewrite !length_map).
  rewrite put_mask_all_true. unfold mask. rewrite !map_map.
  apply map_ext_Forall. eapply Forall_impl; [exact Hwidth|].
  intros r Hr. simpl. rewrite (forallb_zip_eqb _ _ Hr). symmetry. apply bool_decide_not.
Qed.

Lemma select_indices_no_eligible n (lab : list (list Z)) t pp rng :
  Forall (fun r => r = t) lab -> length lab = n ->
  select_indices n (Arr2 lab) t pp rng = Ok (replicate n false).
Proof.
  intros Hall Hn.
  destruct (select_indices_defined n lab t pp rng) as [sel Hsel]; [|done|].
  { unfold eq_broadcast, result_map.
    rewrite (traverse_rows_same_width lab t); [done|].
    eapply Forall_impl; [exact Hall|]. by intros r ->. }
  rewrite Hsel. f_equal.
  destruct (select_indices_inv _ _ _ _ _ _ Hsel) as (Hlsel & _ & Htarget).
  rewrite <- Hlsel. apply all_false_replicate, Forall_forall.
  intros b Hb. apply list_elem_of_lookup in Hb as [i Hi].
  assert (i < length lab) as Hlt by (apply lookup_lt_Some in Hi; lia).
  apply lookup_lt_is_Some in Hlt as [r Hr].
  rewrite Forall_forall in Hall.
  assert (r = t) as -> by (apply Hall; by eapply list_elem_of_lookup_2).
  rewrite (Htarget i Hr) in Hi. by inversion Hi.
Qed.

(** ** More about fit *)

Section MoreFit.
Context `{Collaborators}.

Lemma fit_clean_run (w : world) x y xs lab bs ep rng :
  heap w !! x = Some (Data xs) ->
  heap w !! y = Some (Num (Arr2 lab)) ->
  select_indices (length xs) (Arr2 lab) (target (self w)) (pp_poison (self w)) rng
    = Ok (replicate (length xs) false) ->
  let n := length (heap w) in
  let clean := Arr2 (replicate (length xs) (indicator_row false)) in
  let trained := keras_fit (embed_model (self w)) xs (Arr2 lab) clean bs ep in
  fit x y bs ep rng w =
    match poison [] (target (self w)) with
    | Ok _ =>
        (mkWorld (heap w ++ [Data xs; Num (Arr2 lab); Num clean])
           (set_embed_model trained.1 (set_training_data n (S n) (S (S n)) (self w)))
           (log w),
         trained.2)
    | Raise e =>
        (mkWorld (heap w ++ [Data xs; Num (Arr2 lab)]) (self w) (log w), Raise e)
    end.
Proof.
  intros Hx Hy Hsel n clean trained.
  pose proof (fit_poison_batch_run w x y rng xs (Arr2 lab) Hx Hy) as Hrun.
  rewrite Hsel in Hrun.
  destruct Hrun as (lab0 & rows' & lab' & r & [= <-] & _ & _ & _ & Hnil & Hrun).
  destruct (Hnil eq_refl) as (-> & -> & ->).
  destruct (poison [] (target (self w))) as [p|e]; simpl in Hrun.
  - destruct (fit_stored_run w x y bs ep rng xs (Arr2 lab) _ _ Hx Hy Hrun)
      as (sel & lab1 & rows1 & lab1' & Hfit). cbv zeta in Hfit.
    destruct Hfit as ([= <-] & Hsel' & _ & _ & _ & _ & _ & Hsame & _ & _ & Hfit).
    rewrite Hsel in Hsel'. inversion Hsel'; subst sel.
    destruct (Hsame eq_refl) as [-> ->].
    rewrite Hfit. cbn [heap].
    change (map indicator_row (replicate (length xs) false))
      with (indicator_row <$> replicate (length xs) false).
    by rewrite fmap_replicate.
  - by apply fit_before_assignment.
Qed.

(** X3: when every label row already equals the target (an empty batch
    included), no sample is eligible: whatever the poison rate and the
    draws, the transform is handed the empty batch and, once it returns,
    the combined model is trained on the caller's data and labels with an
    indicator that says clean in every row. *)
Theorem fit_without_eligible_rows (w : world) x y xs lab bs ep rng :
  heap w !! x = Some (Data xs) ->
  heap w !! y = Some (Num (Arr2 lab)) ->
  Forall (fun r => r = target (self w)) lab ->
  length lab = length xs ->
  let n := length (heap w) in
  let clean := Arr2 (replicate (length xs) (indicator_row false)) in
  let trained := keras_fit (embed_model (self w)) xs (Arr2 lab) clean bs ep in
  fit x y bs ep rng w =
    match poison [] (target (self w)) with
    | Ok _ =>
        (mkWorld (heap w ++ [Data xs; Num (Arr2 lab); Num clean])
           (set_embed_model trained.1 (set_training_data n (S n) (S (S n)) (self w)))
           (log w),
         trained.2)
    | Raise e =>
        (mkWorld (heap w ++ [Data xs; Num (Arr2 lab)]) (self w) (log w), Raise e)
    end.
Proof.
  intros Hx Hy Hall Hlen. apply fit_clean_run; try done.
  by apply select_indices_no_eligible.
Qed.

(** X4: when the mask computation of lines 197-199 raises, [fit] raises
    the same exception and leaves the world exactly as it was: no array is
    copied and no attribute of the instance is touched. *)
Theorem fit_mask_failure_changes_nothing (w : world) x y xs ys bs ep rng e :
  heap w !! x = Some (Data xs) ->
  heap w !! y = Some (Num ys) ->
  select_indices (length xs) ys (target (self w)) (pp_poison (self w)) rng = Raise e ->
  fit x y bs ep rng w = (w, Raise e).
Proof.
  intros Hx Hy Hsel.
  pose proof (fit_poison_batch_run w x y rng xs ys Hx Hy) as Hrun.
  rewrite Hsel in Hrun. by apply fit_before_assignment.
Qed.

(** X5: when [y] has another number of rows than [x], the mask assignment
    of line 199 raises [IndexError]; [fit] ends there and changes
    nothing. *)
Theorem fit_row_count_mismatch (w : world) x y xs lab bs ep rng :
  heap w !! x = Some (Data xs) ->
  heap w !! y = Some (Num (Arr2 lab)) ->
  is_ok (eq_broadcast (Arr2 lab) (target (self w))) = true ->
  length lab <> length xs ->
  fit x y bs ep rng w = (w, Raise IndexError).
Proof.
  intros Hx Hy Hok Hlen.
  pose proof (fit_poison_batch_run w x y rng xs (Arr2 lab) Hx Hy) as Hrun.
  assert (select_indices (length xs) (Arr2 lab) (target (self w))
            (pp_poison (self w)) rng = Raise IndexError) as Hsel.
  { unfold select_indices.
    destruct (eq_broadcast (Arr2 lab) (target (self w))) as [bm|e] eqn:Hbm; [|done].
    unfold eq_broadcast, result_map in Hbm.
    destruct (traverse _ lab) as [rows|e] eqn:Hrows; simpl in Hbm; [|done].
    inversion Hbm; subst bm. simpl.
    destruct (traverse_lookup _ _ _ Hrows) as [Hl _].
    unfold setitem_mask, logical_not.
    rewrite !length_map, length_replicate, Hl. by rewrite decide_False. }
  rewrite Hsel in Hrun. by apply fit_before_assignment.
Qed.

End MoreFit.

(** ** What the overwrite loop writes *)

Section Overwrite.
Context `{Collaborators}.

Lemma copies_world_lookup (h : list obj) rows lab (w : world) :
  heap (copies_world h rows lab w) !! length h = Some (Data rows) /\
  heap (copies_world h rows lab w) !! S (length h) = Some (Num (Arr2 lab)).
Proof.
  split; [by apply list_lookup_middle|]. cbn [copies_world heap].
  change (h ++ [Data rows; Num (Arr2 lab)]) with (h ++ [Data rows] ++ [Num (Arr2 lab)]).
  rewrite app_assoc. apply list_lookup_middle. rewrite length_app. simpl. lia.
Qed.

(** A pass of the loop body that does not raise has written the i-th
    row of the transform into row [idx] of both copies. *)
Lemma overwrite_row_ok (h : list obj) pd pl i idx rows lab (w w1 : world) :
  overwrite_row (length h) (S (length h)) pd pl (i, idx) (copies_world h rows lab w)
    = (w1, Ok tt) ->
  exists d l slot r,
    pd !! i = Some d /\ pl !! i = Some l /\
    is_Some (rows !! idx) /\ lab !! idx = Some slot /\
    assign_row slot l = Ok r /\
    w1 = copies_world h (<[idx := d]> rows) (<[idx := r]> lab) w.
Proof.
  unfold overwrite_row, bind, lift, getitem.
  destruct (pd !! i) as [d|]; [|done].
  rewrite (setitem_data_run _ _ _ _ _ (proj1 (copies_world_lookup h rows lab w))).
  destruct (rows !! idx) as [old|] eqn:Hold; [|done].
  match goal with
  | |- context [set_heap ?hh ?ww] =>
      assert (set_heap hh ww = copies_world h (<[idx := d]> rows) lab w) as ->
  end.
  { unfold set_heap, copies_world. cbn [heap self log]. f_equal.
    replace (length h) with (length h + 0) at 1 by lia.
    by rewrite insert_app_r. }
  destruct (pl !! i) as [l|]; [|done].
  rewrite (setitem_num_run _ _ _ _ _
             (proj2 (copies_world_lookup h (<[idx := d]> rows) lab w))).
  unfold setitem_row, result_map, result_bind.
  destruct (lab !! idx) as [slot|] eqn:Hslot; [|done].
  destruct (assign_row slot l) as [r|e] eqn:Hr; [|done].
  intros [= <-]. exists d, l, slot, r. split_and!; try done.
  unfold set_heap, copies_world. cbn [heap self log]. f_equal.
  replace (S (length h)) with (length h + 1) by lia.
  by rewrite insert_app_r.
Qed.

(** A run of the whole loop that does not raise, over distinct indices:
    the j-th index holds the j-th row of the transform, and every other
    row is as before. *)
Lemma overwrite_loop_ok (h : list obj) pd pl (idxs : list nat) :
  forall s rows lab (w w1 : world),
    NoDup idxs ->
    for_each (imap (fun i a => (s + i, a)) idxs)
             (overwrite_row (length h) (S (length h)) pd pl)
             (copies_world h rows lab w) = (w1, Ok tt) ->
    exists rows' lab',
      w1 = copies_world h rows' lab' w /\
      length rows' = length rows /\ length lab' = length lab /\
      (forall k, k ∉ idxs -> rows' !! k = rows !! k /\ lab' !! k = lab !! k) /\
      forall j idx, idxs !! j = Some idx ->
        exists d l slot r,
          pd !! (s + j) = Some d /\ pl !! (s + j) = Some l /\
          lab !! idx = Some slot /\ assign_row slot l = Ok r /\
          rows' !! idx = Some d /\ lab' !! idx = Some r.
Proof.
  induction idxs as [|idx0 idxs IH]; intros s rows lab w w1 Hnd Hrun.
  - simpl in Hrun. inversion Hrun; subst w1. exists rows, lab.
    split_and!; try done; intros j idx Hj; by destruct j.
  - apply NoDup_cons in Hnd as [Hfresh Hnd].
    rewrite imap_cons in Hrun. cbn [for_each] in Hrun. unfold bind in Hrun.
    destruct (overwrite_row _ _ pd pl (s + 0, idx0) _) as [w2 [[]|e]] eqn:Hrow;
      [|done].
    apply overwrite_row_ok in Hrow
      as (d & l & slot & r & Hd & Hl & Hold & Hslot & Hr & ->).
    rewrite (imap_ext _ (fun i a => (S s + i, a))) in Hrun
      by (intros i a _; simpl; f_equal; lia).
    destruct (IH (S s) _ _ w w1 Hnd Hrun)
      as (rows' & lab' & -> & Hlr & Hll & Hkeep & Hwritten).
    rewrite length_insert in Hlr. rewrite length_insert in Hll.
    exists rows', lab'. split_and!; try done.
    + intros k Hk. apply not_elem_of_cons in Hk as [Hne Hk].
      destruct (Hkeep k Hk) as [-> ->].
      by rewrite !list_lookup_insert_ne.
    + intros [|j] idx Hj; simpl in Hj.
      * inversion Hj; subst idx. exists d, l, slot, r.
        destruct (Hkeep idx0 Hfresh) as [-> ->].
        split_and!; try done.
        -- apply list_lookup_insert_eq. by apply lookup_lt_is_Some.
        -- apply list_lookup_insert_eq. by eapply lookup_lt_Some.
      * destruct (Hwritten j idx Hj) as (d' & l' & slot' & r' & ? & ? & Hs' & ? & ? & ?).
        exists d', l', slot', r'.
        replace (s + S j) with (S s + j) by lia.
        split_and!; try done.
        rewrite list_lookup_insert_ne in Hs'; [done|].
        intros ->. apply Hfresh. by eapply list_elem_of_lookup_2.
Qed.

End Overwrite.

Section Poisoned.
Context `{Collaborators}.

(** A call that reaches the assignment: what the transform returned and
    where its rows went. *)
Lemma fit_poison_batch_ok_inv (w : world) x y rng xs lab w1 refs :
  heap w !! x = Some (Data xs) -> heap w !! y = Some (Num (Arr2 lab)) ->
  fit_poison_batch x y rng w = (w1, Ok refs) ->
  exists sel pd pl rows' lab',
    let n := length (heap w) in
    let poison_idxs := take_mask (arange (length xs)) sel in
    select_indices (length xs) (Arr2 lab) (target (self w)) (pp_poison (self w)) rng
      = Ok sel /\
    poison (take_mask xs sel) (target (self w)) = Ok (pd, pl) /\
    refs = (n, S n, S (S n)) /\
    w1 = mkWorld (heap w ++ [Data rows'; Num (Arr2 lab');
                             Num (Arr2 (map indicator_row sel))])
                 (self w) (log w) /\
    length rows' = length xs /\ length lab' = length lab /\
    forall j idx, poison_idxs !! j = Some idx ->
      exists d l slot r,
        pd !! j = Some d /\ pl !! j = Some l /\
        lab !! idx = Some slot /\ assign_row slot l = Ok r /\
        rows' !! idx = Some d /\ lab' !! idx = Some r.
Proof.
  intros Hx Hy.
  destruct (select_indices (length xs) (Arr2 lab) (target (self w))
              (pp_poison (self w)) rng) as [sel|e] eqn:Hsel.
  2: { pose proof (fit_poison_batch_run w x y rng xs (Arr2 lab) Hx Hy) as Hrun.
       rewrite Hsel in Hrun. congruence. }
  destruct (select_indices_inv _ _ _ _ _ _ Hsel) as (Hlsel & Hllab & _).
  unfold fit_poison_batch.
  rewrite (bind_ok _ _ _ _ _ (load_data_ok _ _ _ Hx)).
  rewrite (bind_ok _ _ _ _ _ (load_num_ok _ _ _ Hy)).
  unfold bind at 1. unfold get_self at 1. rewrite Hsel.
  unfold bind at 1. unfold lift at 1.
  unfold bind at 1. unfold alloc at 1.
  unfold bind at 1. unfold alloc at 1.
  replace (length (heap (set_heap (heap w ++ [Data xs]) w)))
    with (S (length (heap w)))
    by (cbn [set_heap heap]; rewrite length_app; simpl; lia).
  replace (set_heap (heap (set_heap (heap w ++ [Data xs]) w) ++ [Num (Arr2 lab)])
                    (set_heap (heap w ++ [Data xs]) w))
    with (copies_world (heap w) xs lab w)
    by (unfold copies_world, set_heap; cbn [heap self log]; by rewrite <- app_assoc).
  rewrite (bind_ok _ _ _ _ _
             (load_data_ok _ _ _ (proj1 (copies_world_lookup (heap w) xs lab w)))).
  unfold bind at 1. unfold lift at 1. unfold getitem_mask.
  rewrite decide_True by done.
  unfold bind at 1. unfold lift at 1.
  destruct (poison (take_mask xs sel) (target (self w))) as [[pd pl]|e] eqn:Hp; [|done].
  unfold bind at 1. unfold lift at 1.
  rewrite decide_True by (unfold arange; by rewrite length_seq).
  unfold bind at 1.
  destruct (for_each _ _ (copies_world (heap w) xs lab w)) as [w2 [[]|e]] eqn:Hloop;
    [|done].
  apply (overwrite_loop_ok (heap w) pd pl _ 0) in Hloop
    as (rows' & lab' & -> & Hr & Hl & _ & Hwritten);
    [|apply NoDup_take_mask_arange].
  rewrite <- Hlsel at 1 2. rewrite isin_take_mask.
  unfold bind at 1. unfold lift at 1.
  replace (arange (length xs)) with (arange (length (astype_int sel)))
    by (unfold astype_int; by rewrite length_map, Hlsel).
  rewrite fancy_index_arange.
  unfold bind at 1. unfold lift at 1. rewrite fancy_index_eye.
  unfold bind, alloc, ret, copies_world, set_heap. cbn [heap self log].
  rewrite length_app. simpl.
  replace (length (heap w) + 2) with (S (S (length (heap w)))) by lia.
  rewrite <- app_assoc. simpl.
  intros [= <- <-]. exists sel, pd, pl, rows', lab'. cbv zeta.
  split_and!; try done.
  unfold astype_int. rewrite length_map, Hlsel. exact Hwritten.
Qed.

End Poisoned.

(** ** The stored training set *)

Section Stored.
Context `{Collaborators}.

(** X6: in a call that reaches the assignment, the j-th selected sample is
    the j-th row handed to the backdoor transform, and the stored training
    set holds at its index the j-th data row the transform returned, the
    j-th label row it returned (broadcast to the width of the label), and
    an indicator row that says poisoned. *)
Theorem fit_overwrites_selected_rows (w : world) x y xs lab bs ep rng w1 refs :
  heap w !! x = Some (Data xs) ->
  heap w !! y = Some (Num (Arr2 lab)) ->
  fit_poison_batch x y rng w = (w1, Ok refs) ->
  let w' := (fit x y bs ep rng w).1 in
  exists sel pd pl rows' lab' ind,
    select_indices (length xs) (Arr2 lab) (target (self w)) (pp_poison (self w)) rng
      = Ok sel /\
    poison (take_mask xs sel) (target (self w)) = Ok (pd, pl) /\
    heap w' !! refs.1.1 = Some (Data rows') /\
    heap w' !! refs.1.2 = Some (Num (Arr2 lab')) /\
    heap w' !! refs.2 = Some (Num (Arr2 ind)) /\
    forall j idx, take_mask (arange (length xs)) sel !! j = Some idx ->
      sel !! idx = Some true /\
      take_mask xs sel !! j = xs !! idx /\
      ind !! idx = Some (indicator_row true) /\
      exists d l slot r,
        pd !! j = Some d /\ pl !! j = Some l /\
        lab !! idx = Some slot /\ assign_row slot l = Ok r /\
        rows' !! idx = Some d /\ lab' !! idx = Some r.
Proof.
  intros Hx Hy Hb w'.
  destruct (fit_poison_batch_ok_inv w x y rng xs lab w1 refs Hx Hy Hb)
    as (sel & pd & pl & rows' & lab' & Hinv). cbv zeta in Hinv.
  destruct Hinv as (Hsel & Hp & -> & -> & Hr & Hl & Hwritten).
  destruct (lookup_three (heap w) (Data rows') (Num (Arr2 lab'))
              (Num (Arr2 (map indicator_row sel)))) as (H0 & H1 & H2).
  exists sel, pd, pl, rows', lab', (map indicator_row sel).
  unfold w'. rewrite (fit_after_assignment _ _ _ _ _ _ _ _ _ _ _ _ _ Hb H0 H1 H2).
  cbn [fst snd heap]. split_and!; try done.
  intros j idx Hj.
  destruct (take_mask_lookup_seq xs sel 0 j idx Hj) as (k & -> & Hrow & Hk).
  simpl. split_and!; try done.
  - by rewrite list_lookup_fmap, Hk.
  - by apply Hwritten.
Qed.

(** X7: when the backdoor transform returns fewer data rows or fewer label
    rows than there are selected samples, [fit] raises before the
    assignment: the attributes of the instance and the log are as they
    were. *)
Theorem fit_transform_shortfall_raises (w : world) x y xs lab bs ep rng sel pd pl :
  heap w !! x = Some (Data xs) ->
  heap w !! y = Some (Num (Arr2 lab)) ->
  select_indices (length xs) (Arr2 lab) (target (self w)) (pp_poison (self w)) rng
    = Ok sel ->
  poison (take_mask xs sel) (target (self w)) = Ok (pd, pl) ->
  length pd < count_true sel \/ length pl < count_true sel ->
  exists e w1,
    fit x y bs ep rng w = (w1, Raise e) /\ self w1 = self w /\ log w1 = log w.
Proof.
  intros Hx Hy Hsel Hp Hshort.
  destruct (fit_poison_batch x y rng w) as [w1 [refs|e]] eqn:Hb.
  - exfalso.
    destruct (fit_poison_batch_ok_inv w x y rng xs lab w1 refs Hx Hy Hb)
      as (sel' & pd' & pl' & rows' & lab' & Hinv). cbv zeta in Hinv.
    destruct Hinv as (Hsel' & Hp' & _ & _ & _ & _ & Hwritten).
    rewrite Hsel in Hsel'. inversion Hsel'; subst sel'.
    rewrite Hp in Hp'. inversion Hp'; subst pd' pl'.
    destruct (select_indices_inv _ _ _ _ _ _ Hsel) as (Hlsel & _ & _).
    assert (length (take_mask (arange (length xs)) sel) = count_true sel) as Hcount.
    { apply length_take_mask. unfold arange. by rewrite length_seq. }
    destruct Hshort as [Hshort|Hshort].
    + destruct (lookup_lt_is_Some_2 (take_mask (arange (length xs)) sel) (length pd))
        as [idx Hidx]; [lia|].
      destruct (Hwritten _ _ Hidx) as (d & _ & _ & _ & Hd & _).
      apply lookup_lt_Some in Hd. lia.
    + destruct (lookup_lt_is_Some_2 (take_mask (arange (length xs)) sel) (length pl))
        as [idx Hidx]; [lia|].
      destruct (Hwritten _ _ Hidx) as (_ & l & _ & _ & _ & Hl & _).
      apply lookup_lt_Some in Hl. lia.
  - exists e, w1. split; [by apply fit_before_assignment|].
    pose proof (fit_poison_batch_run w x y rng xs (Arr2 lab) Hx Hy) as Hrun.
    rewrite Hsel in Hrun.
    destruct Hrun as (lab0 & rows' & lab' & r & _ & _ & _ & _ & _ & Hrun).
    rewrite Hrun in Hb. destruct r as [[]|e']; [done|]. by inversion Hb.
Qed.

(** X8: the three arrays that [fit] stores are new objects: their
    references differ from one another, from the caller's [x] and [y], and
    from every reference that was in use before the call. *)
Theorem fit_stores_fresh_arrays (w : world) x y xs ys rng w1 refs :
  heap w !! x = Some (Data xs) ->
  heap w !! y = Some (Num ys) ->
  fit_poison_batch x y rng w = (w1, Ok refs) ->
  refs.1.1 <> refs.1.2 /\ refs.1.1 <> refs.2 /\ refs.1.2 <> refs.2 /\
  refs.1.1 <> x /\ refs.1.2 <> y /\
  forall l, is_Some (heap w !! l) ->
            l <> refs.1.1 /\ l <> refs.1.2 /\ l <> refs.2.
Proof.
  intros Hx Hy Hb.
  destruct (fit_stored_run w x y 0 0 rng xs ys w1 refs Hx Hy Hb)
    as (sel & lab & rows' & lab' & Hfit). cbv zeta in Hfit.
  destruct Hfit as (_ & _ & _ & _ & _ & _ & _ & _ & -> & _ & _).
  pose proof (lookup_lt_Some _ _ _ Hx). pose proof (lookup_lt_Some _ _ _ Hy).
  simpl. split_and!; try lia.
  intros l Hl%lookup_lt_is_Some. lia.
Qed.

(** X9: a training set handed out after one call of [fit] stays as it is
    through any later call: the later call, however it ends, leaves the
    three arrays untouched, and when it stores a training set of its own
    [get_training_data] answers with three other references. *)
Theorem later_fit_keeps_earlier_training_set (w : world) x y xs ys bs ep rng wa refs
    x2 y2 bs2 ep2 rng2 :
  heap w !! x = Some (Data xs) ->
  heap w !! y = Some (Num ys) ->
  fit_poison_batch x y rng w = (wa, Ok refs) ->
  let w1 := (fit x y bs ep rng w).1 in
  let w2 := (fit x2 y2 bs2 ep2 rng2 w1).1 in
  is_Some (heap w1 !! refs.1.1) /\
  heap w2 !! refs.1.1 = heap w1 !! refs.1.1 /\
  heap w2 !! refs.1.2 = heap w1 !! refs.1.2 /\
  heap w2 !! refs.2 = heap w1 !! refs.2 /\
  forall xs2 ys2 wb refs2,
    heap w1 !! x2 = Some (Data xs2) -> heap w1 !! y2 = Some (Num ys2) ->
    fit_poison_batch x2 y2 rng2 w1 = (wb, Ok refs2) ->
    get_training_data w2 = (w2, Ok refs2) /\
    refs2.1.1 <> refs.1.1 /\ refs2.1.2 <> refs.1.2 /\ refs2.2 <> refs.2.
Proof.
  intros Hx Hy Hb w1 w2.
  destruct (fit_stored_run w x y bs ep rng xs ys wa refs Hx Hy Hb)
    as (sel & lab & rows' & lab' & Hfit). cbv zeta in Hfit.
  destruct Hfit as (_ & _ & _ & _ & _ & _ & _ & _ & -> & -> & Hfit).
  destruct (lookup_three (heap w) (Data rows') (Num (Arr2 lab'))
              (Num (Arr2 (map indicator_row sel)))) as (H0 & H1 & H2).
  assert (heap w1 = heap w ++ [Data rows'; Num (Arr2 lab');
                               Num (Arr2 (map indicator_row sel))]) as Hw1.
  { unfold w1. by rewrite Hfit. }
  cbn [fst snd].
  assert (heap w1 !! length (heap w) = Some (Data rows')) as H0'
    by (rewrite Hw1; exact H0).
  assert (heap w1 !! S (length (heap w)) = Some (Num (Arr2 lab'))) as H1'
    by (rewrite Hw1; exact H1).
  assert (heap w1 !! S (S (length (heap w)))
          = Some (Num (Arr2 (map indicator_row sel)))) as H2'
    by (rewrite Hw1; exact H2).
  assert (forall l o, heap w1 !! l = Some o -> heap w2 !! l = Some o) as Hframe.
  { intros l o Hl. unfold w2.
    destruct (fit_heap_cases w1 x2 y2 bs2 ep2 rng2) as [->|(_ & _ & ext & ->)];
      [done|]. by apply lookup_app_l_Some. }
  split_and!.
  - by eexists.
  - transitivity (Some (Data rows')); [by apply Hframe | symmetry; exact H0'].
  - transitivity (Some (Num (Arr2 lab'))); [by apply Hframe | symmetry; exact H1'].
  - transitivity (Some (Num (Arr2 (map indicator_row sel))));
      [by apply Hframe | symmetry; exact H2'].
  - intros xs2 ys2 wb refs2 Hx2 Hy2 Hb2.
    destruct (fit_stored_run w1 x2 y2 bs2 ep2 rng2 xs2 ys2 wb refs2 Hx2 Hy2 Hb2)
      as (sel2 & lab2 & rows2 & lab2' & Hfit2). cbv zeta in Hfit2.
    destruct Hfit2 as (_ & _ & _ & _ & _ & _ & _ & _ & -> & _ & Hfit2).
    unfold w2. rewrite Hfit2. cbn [fst snd]. split; [done|].
    rewrite Hw1, length_app. simpl. lia.
Qed.

Lemma fit_self_cases (w : world) x y bs ep rng :
  log (fit x y bs ep rng w).1 = log w /\
  (self (fit x y bs ep rng w).1 = self w \/
   exists m td tl ib,
     self (fit x y bs ep rng w).1
       = set_embed_model m (set_training_data td tl ib (self w))).
Proof.
  destruct (heap w !! x) as [[xs|a]|] eqn:Hx.
  2,3: destruct (load_data_fail x w) as [e He]; [intros ?; congruence|];
       rewrite (fit_before_assignment _ _ _ _ _ _ w e); [by split; [|left]|];
       unfold fit_poison_batch; by rewrite (bind_raise _ _ _ _ _ He).
  destruct (heap w !! y) as [[rows|ys]|] eqn:Hy.
  1,3: destruct (load_num_fail y w) as [e He]; [intros ?; congruence|];
       rewrite (fit_before_assignment _ _ _ _ _ _ w e); [by split; [|left]|];
       unfold fit_poison_batch;
       rewrite (bind_ok _ _ _ _ _ (load_data_ok _ _ _ Hx));
       by rewrite (bind_raise _ _ _ _ _ He).
  pose proof (fit_poison_batch_run w x y rng xs ys Hx Hy) as Hrun.
  destruct (select_indices _ ys _ _ rng) as [sel|e] eqn:Hsel.
  - destruct Hrun as (lab & rows' & lab' & r & -> & _ & _ & _ & _ & Hrun).
    destruct r as [[]|e].
    + destruct (fit_stored_run _ _ _ bs ep _ _ _ _ _ Hx Hy Hrun)
        as (? & ? & ? & ? & _ & _ & _ & _ & _ & _ & _ & _ & _ & _ & ->).
      cbn [fst self log]. split; [done|]. right. eauto.
    + rewrite (fit_before_assignment _ _ _ _ _ _ _ _ Hrun). cbn [fst self log].
      by split; [|left].
  - rewrite (fit_before_assignment _ _ _ _ _ _ _ _ Hrun). by split; [|left].
Qed.

(** X10: however it ends, [fit] leaves the configuration of the instance
    (target, poison rate, verbose flag, detection threshold) and the log
    as they were. *)
Theorem fit_keeps_configuration (w : world) x y bs ep rng :
  let w' := (fit x y bs ep rng w).1 in
  target (self w') = target (self w) /\
  pp_poison (self w') = pp_poison (self w) /\
  verbose (self w') = verbose (self w) /\
  detect_threshold (self w') = detect_threshold (self w) /\
  log w' = log w.
Proof.
  intros w'. unfold w'.
  destruct (fit_self_cases w x y bs ep rng) as [Hlog [->|(m & td & tl & ib & ->)]];
    by split_and!.
Qed.

End Stored.

(** ** More about predict and the constructor *)

Section MoreAccessors.
Context `{Collaborators}.

(** X11: however it ends, [predict] leaves every array and every attribute
    of the instance as they were and only ever appends to the log; with
    the verbose flag off it leaves the log alone as well. *)
Theorem predict_leaves_estimator (w : world) x bs :
  let w' := (predict x bs w).1 in
  heap w' = heap w /\
  self w' = self w /\
  log w `prefix_of` log w' /\
  (verbose (self w) = false -> w' = w).
Proof.
  intros w'. unfold w'. split_and!.
  4: { intros Hv. by rewrite (predict_quiet _ _ _ Hv). }
  all: unfold predict, bind, lift, get_self, ret, warn;
    destruct (apply_preprocessing x) as [xp|e]; [|done];
    destruct (keras_predict _ xp bs) as [[task bp]|e]; [|done];
    destruct (verbose (self w)); [|done];
    destruct (np_any _); [|done];
    destruct (getitem_bool _ _) as [idxs|e]; cbn [fst heap self log]; try done.
  - rewrite <- !app_assoc. apply prefix_app_r. done.
  - rewrite <- !app_assoc. apply prefix_app_r. done.
Qed.

(** X12: with the verbose flag on and a two-column discriminator output,
    [predict] returns predictions exactly when no entry of that output
    exceeds the detection threshold; it then returns what the quiet
    estimator returns and logs nothing. *)
Theorem predict_verbose_returns_iff_no_suspect (w : world) x bs xp task bp preds :
  verbose (self w) = true ->
  apply_preprocessing x = Ok xp ->
  keras_predict (embed_model (self w)) xp bs = Ok (task, Arr2 bp) ->
  apply_postprocessing task = Ok preds ->
  let suspected :=
    array_map (fun p => Qltb (detect_threshold (self w)) p) (Arr2 bp) in
  (np_any suspected = false -> predict x bs w = (w, Ok preds)) /\
  (forall w' p, predict x bs w = (w', Ok p) -> np_any suspected = false).
Proof.
  intros Hv Hpre Hpred Hpost suspected. split.
  - intros Hany. unfold predict, bind, lift, get_self, ret.
    rewrite Hpre, Hpred, Hv. fold suspected. by rewrite Hany, Hpost.
  - intros w' p Hrun. destruct (np_any suspected) eqn:Hany; [|done].
    destruct (predict_verbose_suspects w x bs xp task bp Hv Hpre Hpred Hany)
      as [msg Hraise].
    congruence.
Qed.

(** X13: for a base model with fewer than six layers the constructor
    raises [IndexError] at [model.layers[5]], whatever the [feature_layer]
    argument and before any loss is looked at. *)
Theorem constructor_needs_six_layers model fl tgt pp d1 d2 reg vb thr :
  length (layers model) <= 5 ->
  build_embed_model model fl d1 d2 reg = Raise IndexError /\
  init model fl tgt pp d1 d2 reg vb thr = Raise IndexError.
Proof.
  intros Hlen.
  assert (build_embed_model model fl d1 d2 reg = Raise IndexError) as Hbuild.
  { unfold build_embed_model, feature_layer_output, getitem.
    by rewrite lookup_ge_None_2. }
  split; [done|]. unfold init. by rewrite Hbuild.
Qed.

End MoreAccessors.

(** ** The further properties at concrete inputs *)

Lemma select_indices_full_rate_witness :
  select_indices 4 (Arr2 Examples.y4) [1; 0]%Z 1 Examples.high_draws
    = Ok (map (fun r => bool_decide (r <> [1; 0]%Z)) Examples.y4).
Proof.
  apply (select_indices_full_rate 4 Examples.y4 [1; 0]%Z 1 Examples.high_draws).
  - repeat constructor.
  - reflexivity.
  - discriminate.
  - intros k. reflexivity.
Defined.

(** The mask of the previous lemma, spelled out. *)
Example select_indices_full_rate_mask :
  select_indices 4 (Arr2 Examples.y4) [1; 0]%Z 1 Examples.high_draws
    = Ok [true; false; true; false].
Proof. reflexivity. Qed.

Lemma fit_without_eligible_rows_witness :
  fit 0 1 64 10 Examples.low_draws MoreExamples.all_target_world =
    (mkWorld (heap MoreExamples.all_target_world
                ++ [Data Examples.x4; Num (Arr2 MoreExamples.y_target);
                    Num (Arr2 (replicate 4 (indicator_row false)))])
       (set_embed_model 1
          (set_training_data 2 3 4 (self MoreExamples.all_target_world)))
       [],
     Ok tt).
Proof.
  apply (fit_without_eligible_rows MoreExamples.all_target_world 0 1
           Examples.x4 MoreExamples.y_target 64 10 Examples.low_draws);
    try reflexivity.
  repeat constructor.
Defined.

Lemma fit_mask_failure_changes_nothing_witness :
  fit 0 2 64 10 Examples.low_draws Examples.index_world
    = (Examples.index_world, Raise AxisError).
Proof.
  apply (fit_mask_failure_changes_nothing Examples.index_world 0 2 Examples.x4
           (Arr1 [1; 0; 1; 0]%Z) 64 10 Examples.low_draws AxisError); reflexivity.
Defined.

Lemma fit_row_count_mismatch_witness :
  fit 0 1 64 10 Examples.low_draws MoreExamples.mismatched_world
    = (MoreExamples.mismatched_world, Raise IndexError).
Proof.
  apply (fit_row_count_mismatch MoreExamples.mismatched_world 0 1 Examples.x4
           MoreExamples.y3 64 10 Examples.low_draws); try reflexivity.
  discriminate.
Defined.

Lemma fit_overwrites_selected_rows_witness :
  exists sel pd pl rows' lab' ind,
    select_indices 4 (Arr2 Examples.y4) [1; 0]%Z (1 # 2) Examples.low_draws = Ok sel /\
    poison (take_mask Examples.x4 sel) [1; 0]%Z = Ok (pd, pl) /\
    heap (fit 0 1 64 10 Examples.low_draws (Examples.toy_world (1 # 2) false)).1 !! 3
      = Some (Data rows') /\
    heap (fit 0 1 64 10 Examples.low_draws (Examples.toy_world (1 # 2) false)).1 !! 4
      = Some (Num (Arr2 lab')) /\
    heap (fit 0 1 64 10 Examples.low_draws (Examples.toy_world (1 # 2) false)).1 !! 5
      = Some (Num (Arr2 ind)) /\
    forall j idx, take_mask (arange 4) sel !! j = Some idx ->
      sel !! idx = Some true /\
      take_mask Examples.x4 sel !! j = Examples.x4 !! idx /\
      ind !! idx = Some (indicator_row true) /\
      exists d l slot r,
        pd !! j = Some d /\ pl !! j = Some l /\
        Examples.y4 !! idx = Some slot /\ assign_row slot l = Ok r /\
        rows' !! idx = Some d /\ lab' !! idx = Some r.
Proof.
  apply (fit_overwrites_selected_rows (Examples.toy_world (1 # 2) false) 0 1
           Examples.x4 Examples.y4 64 10 Examples.low_draws
           (fit_poison_batch 0 1 Examples.low_draws (Examples.toy_world (1 # 2) false)).1
           (3, 4, 5)); reflexivity.
Defined.

Lemma fit_transform_shortfall_raises_witness :
  exists e w1,
    fit 0 1 64 10 Examples.low_draws MoreExamples.short_world = (w1, Raise e) /\
    self w1 = self MoreExamples.short_world /\
    log w1 = log MoreExamples.short_world.
Proof.
  apply (fit_transform_shortfall_raises (H := MoreExamples.short_transform)
           MoreExamples.short_world 0 1 Examples.x4 Examples.y4 64 10
           Examples.low_draws [true; false; true; false] [] []);
    try reflexivity.
  left. simpl. unfold count_true. simpl. lia.
Defined.

(** The exception of the previous lemma: the first selected sample finds
    no row in the empty answer of the transform. *)
Example fit_transform_shortfall_index_error :
  (fit 0 1 64 10 Examples.low_draws MoreExamples.short_world).2 = Raise IndexError.
Proof. reflexivity. Qed.

Lemma fit_stores_fresh_arrays_witness :
  3 <> 4 /\ 3 <> 5 /\ 4 <> 5 /\ 3 <> 0 /\ 4 <> 1 /\
  forall l, is_Some (heap (Examples.toy_world (1 # 2) false) !! l) ->
            l <> 3 /\ l <> 4 /\ l <> 5.
Proof.
  apply (fit_stores_fresh_arrays (Examples.toy_world (1 # 2) false) 0 1
           Examples.x4 (Arr2 Examples.y4) Examples.low_draws
           (fit_poison_batch 0 1 Examples.low_draws (Examples.toy_world (1 # 2) false)).1
           (3, 4, 5)); reflexivity.
Defined.

Lemma later_fit_keeps_earlier_training_set_witness :
  heap (fit 0 1 64 10 Examples.high_draws
          (fit 0 1 64 10 Examples.low_draws (Examples.toy_world (1 # 2) false)).1).1 !! 3
    = heap (fit 0 1 64 10 Examples.low_draws (Examples.toy_world (1 # 2) false)).1 !! 3 /\
  get_training_data
    (fit 0 1 64 10 Examples.high_draws
       (fit 0 1 64 10 Examples.low_draws (Examples.toy_world (1 # 2) false)).1).1
    = ((fit 0 1 64 10 Examples.high_draws
          (fit 0 1 64 10 Examples.low_draws (Examples.toy_world (1 # 2) false)).1).1,
       Ok (6, 7, 8)).
Proof.
  destruct (later_fit_keeps_earlier_training_set
              (Examples.toy_world (1 # 2) false) 0 1 Examples.x4 (Arr2 Examples.y4)
              64 10 Examples.low_draws
              (fit_poison_batch 0 1 Examples.low_draws
                 (Examples.toy_world (1 # 2) false)).1
              (3, 4, 5) 0 1 64 10 Examples.high_draws eq_refl eq_refl eq_refl)
    as (_ & Hdata & _ & _ & Hlater).
  split; [exact Hdata|].
  apply (Hlater Examples.x4 (Arr2 Examples.y4)
           (fit_poison_batch 0 1 Examples.high_draws
              (fit 0 1 64 10 Examples.low_draws (Examples.toy_world (1 # 2) false)).1).1
           (6, 7, 8)); reflexivity.
Defined.

Lemma predict_verbose_returns_iff_no_suspect_witness :
  predict [10; 20]%Z 128 (Examples.toy_world (1 # 2) true)
    = (Examples.toy_world (1 # 2) true,
       Ok (Arr2 [[1 # 2; 1 # 2]; [1 # 2; 1 # 2]]%Q)).
Proof.
  apply (predict_verbose_returns_iff_no_suspect (Examples.toy_world (1 # 2) true)
           [10; 20]%Z 128 [10; 20]%Z
           (Arr2 [[1 # 2; 1 # 2]; [1 # 2; 1 # 2]]%Q)
           [[1 # 2; 1 # 2]; [1 # 2; 1 # 2]]%Q
           (Arr2 [[1 # 2; 1 # 2]; [1 # 2; 1 # 2]]%Q)); reflexivity.
Defined.

Lemma constructor_needs_six_layers_witness :
  build_embed_model MoreExamples.shallow (ByIndex 4) 256 128 10 = Raise IndexError /\
  init MoreExamples.shallow (ByIndex 4) [1; 0]%Z (1 # 2) 256 128 10 false (8 # 10)
    = Raise IndexError.
Proof.
  apply (constructor_needs_six_layers MoreExamples.shallow (ByIndex 4) [1; 0]%Z
           (1 # 2) 256 128 10 false (8 # 10)).
  simpl. lia.
Defined.
